(** * gym-mcp: the tool handlers of [src/main.py] and [src/server.py]

    The two modules register tool handlers on a FastMCP server.  Every
    handler looks a session up in a process-wide [GameRegistry], calls one
    method of the session object and formats the outcome as text.

    The handlers are embedded as state-passing functions over the registry.
    A session object is mutated in place by its own methods, so a method call
    writes the updated object back under the key the handler fetched it from.
    Each handler also reports the list of method calls it made on session
    objects, which is what "forwards"/"invokes" statements are about.

    The packages [games.registry] and [games.types] and the game classes are
    imported by the handlers but their code is not part of the two modules.
    The game interface is therefore a type class, the text renderers are
    parameters, and the registry and the two state-machine variants are
    modelled from the specification (each such definition says so). *)

From stdpp Require Import gmap strings list fin_maps.
From Stdlib Require Import ZArith.

Local Open Scope string_scope.
Local Open Scope Z_scope.

(** ** Data types of [games.types] *)

(** Modelled from the spec: the session status of section 3,
    [status ∈ {pending, in_progress, finished}]. *)
Inductive Status := Pending | InProgress | Finished.

#[global] Instance Status_eq_dec : EqDecision Status.
Proof. solve_decision. Defined.

(** Python values that travel in an action payload ([Dict[str, Any]]). *)
Inductive Value :=
| VInt (n : Z)
| VStr (s : string)
| VBool (b : bool)
| VNone.

#[global] Instance Value_eq_dec : EqDecision Value.
Proof. solve_decision. Defined.

(** [GameAction(type=..., payload=..., player=...)]. *)
Record GameAction := {
  type : string;
  payload : gmap string Value;
  player : string;
}.

(** Modelled from the spec: the error kinds of section 7.  [UnknownKind]
    and [DuplicateId] carry the offending name. *)
Inductive Error :=
| UnknownKind (kind_name : string)
| DuplicateId (id : string)
| NotFound (id : string)
| KindMismatch (id : string)
| InvalidPlayers
| IllegalAction
| EnvironmentFault.

#[global] Instance Error_eq_dec : EqDecision Error.
Proof. solve_decision. Defined.

(** Modelled from the spec: the Snapshot of section 3, "kind-specific fields
    + status".  The handlers read [new_state.id]; the registry listing reads
    the status.  [D] is the type of the kind-specific fields. *)
Record GameState (D : Type) := {
  gs_id : string;
  gs_type : string;
  gs_players : list string;
  gs_status : Status;
  gs_data : D;
}.
Arguments gs_id {D} _.
Arguments gs_type {D} _.
Arguments gs_players {D} _.
Arguments gs_status {D} _.
Arguments gs_data {D} _.

(** The result object as the handlers read it: [result.success],
    [result.new_state] and [result.error], the last two optional. *)
Record GameResult (D : Type) := {
  success : bool;
  new_state : option (GameState D);
  error : option Error;
}.
Arguments success {D} _.
Arguments new_state {D} _.
Arguments error {D} _.

Definition ok {D} (s : GameState D) : GameResult D :=
  {| success := true; new_state := Some s; error := None |}.

Definition failure {D} (e : Error) : GameResult D :=
  {| success := false; new_state := None; error := Some e |}.

(** Exactly one of snapshot and error is populated, in agreement with the
    success flag. *)
Definition well_formed {D} (r : GameResult D) : Prop :=
  (success r = true ∧ is_Some (new_state r) ∧ error r = None) ∨
  (success r = false ∧ new_state r = None ∧ is_Some (error r)).

(** ** The game interface

    What the handlers use of a session object: the attribute [game.type] and
    the methods [start], [make_move], [get_state] and [reset].  A method
    returns its result together with the object as the call left it. *)
Class BaseGame (D G : Type) := {
  game_type : G → string;
  start : G → list string → GameResult D * G;
  game_make_move : G → GameAction → GameResult D * G;
  get_state : G → GameState D;
  reset : G → GameResult D * G;
}.

(** Python's [str()] of the values the handlers interpolate into their
    f-strings: a dumped snapshot, an error description and the listing
    dictionary of [list_games]. *)
Inductive ListingValue :=
| AvailableGames (kinds : list string)
| ActiveGames (active : gmap string (string * Status)).

Class Rendering (D : Type) := {
  model_dump : GameState D → string;
  describe : Error → string;
  repr : list (string * ListingValue) → string;
}.

(** [f"{result.error}"]: an absent error prints as [None]. *)
Definition str_error `{Rendering D} (e : option Error) : string :=
  match e with
  | Some e => describe e
  | None => "None"
  end.

(** ** The registry

    Modelled from the spec (section 4.1): the registration table of kinds and
    the live-session map.  [new_id] stands for the id generator used when no
    explicit id is given. *)
Record GameRegistry (G : Type) := {
  factories : list (string * (string → G));
  games : gmap string G;
}.
Arguments factories {G} _.
Arguments games {G} _.

Section Registry.
Context {D G : Type} `{BaseGame D G}.
Variable new_id : GameRegistry G → string.

(** [d[key] = val] on an insertion-ordered dictionary. *)
Fixpoint dict_set {V} (key : string) (val : V) (d : list (string * V))
  : list (string * V) :=
  match d with
  | [] => [(key, val)]
  | (k, v) :: d' =>
      if decide (k = key) then (k, val) :: d' else (k, v) :: dict_set key val d'
  end.

Fixpoint dict_get {V} (key : string) (d : list (string * V)) : option V :=
  match d with
  | [] => None
  | (k, v) :: d' => if decide (k = key) then Some v else dict_get key d'
  end.

(** The session object [game] lives at [key]; [store] records the state a
    method call left it in. *)
Definition store (r : GameRegistry G) (key : string) (game : G) : GameRegistry G :=
  {| factories := factories r; games := <[key := game]> (games r) |}.

(** Modelled from the spec: [get(id)], a pure lookup.  The handlers test the
    answer with [if not game]: the session object when the id is live (an
    object is truthy), [None] otherwise. *)
Definition get_game (r : GameRegistry G) (id : string) : option G :=
  games r !! id.

(** Modelled from the spec: [list_kinds()], derived from the registration
    table. *)
Definition get_available_games (r : GameRegistry G) : list string :=
  (factories r).*1.

(** Modelled from the spec: [list_active()], the mapping
    id -> (kind, status) of the live sessions. *)
Definition get_active_games (r : GameRegistry G) : gmap string (string * Status) :=
  (λ g, (game_type g, gs_status (get_state g))) <$> games r.

(** Modelled from the spec: [create(kind_name, optional explicit_id)].
    The kind is resolved first ([UnknownKind]); an explicit id that is
    already live is refused ([DuplicateId]); otherwise the new object, in
    the state its factory builds, is inserted in the live-session map. *)
Definition create_game (r : GameRegistry G) (game_type : string)
    (game_id : option string) : GameResult D * GameRegistry G :=
  match dict_get game_type (factories r) with
  | None => (failure (UnknownKind game_type), r)
  | Some factory =>
      match game_id with
      | Some id =>
          if decide (is_Some (games r !! id))
          then (failure (DuplicateId id), r)
          else let game := factory id in (ok (get_state game), store r id game)
      | None =>
          let id := new_id r in
          let game := factory id in (ok (get_state game), store r id game)
      end
  end.
End Registry.

(** ** What a handler does

    A tool call returns a string, or raises when it dereferences [None];
    besides that it may change the registry and the session objects, and it
    calls methods of session objects. *)
Inductive Reply :=
| Text (s : string)
| Raised (exn : string).

Inductive Call :=
| CallStart (key : string) (players : list string)
| CallMakeMove (key : string) (action : GameAction)
| CallGetState (key : string)
| CallReset (key : string).

Record Outcome (G : Type) := {
  reply : Reply;
  registry : GameRegistry G;
  calls : list Call;
}.
Arguments reply {G} _.
Arguments registry {G} _.
Arguments calls {G} _.

Definition is_make_move (c : Call) : bool :=
  match c with CallMakeMove _ _ => true | _ => false end.

Section Report.
Context {D : Type} `{Rendering D}.

(** The tail shared by the handlers:
    [if result.success: return f"<good>{result.new_state.model_dump()}"]
    [else: return f"<bad>{result.error}"].
    Dumping an absent snapshot raises [AttributeError]. *)
Definition report (good bad : string) (result : GameResult D) : Reply :=
  if success result then
    match new_state result with
    | Some st => Text (good +:+ model_dump st)
    | None => Raised "AttributeError"
    end
  else Text (bad +:+ str_error (error result)).
End Report.

(** ** [src/main.py] *)
Module Main.
Section Handlers.
Context {D G : Type} `{BaseGame D G} `{Rendering D}.
Variable new_id : GameRegistry G → string.

Definition list_games_result (show_active : bool) (r : GameRegistry G)
  : list (string * ListingValue) :=
  let available_games := get_available_games r in
  let result := [("available_games", AvailableGames available_games)] in
  if show_active then
    let active_games := get_active_games r in
    dict_set "active_games" (ActiveGames active_games) result
  else result.

Definition list_games (show_active : bool) (r : GameRegistry G) : Outcome G :=
  {| reply := Text ("Games: " +:+ repr (list_games_result show_active r));
     registry := r; calls := [] |}.

Definition start_game (game_type : string) (players : list string)
    (game_id : option string) (r : GameRegistry G) : Outcome G :=
  let '(result, r1) := create_game new_id r game_type game_id in
  if negb (success result) then
    {| reply := Text ("Error: " +:+ str_error (error result));
       registry := r1; calls := [] |}
  else
    match new_state result with
    | None => {| reply := Raised "AttributeError"; registry := r1; calls := [] |}
    | Some created =>
        match get_game r1 (gs_id created) with
        | None => {| reply := Raised "AttributeError"; registry := r1; calls := [] |}
        | Some game =>
            let '(start_result, game') := start game players in
            {| reply := report "Game started: " "Error starting game: " start_result;
               registry := store r1 (gs_id created) game';
               calls := [CallStart (gs_id created) players] |}
        end
    end.

Definition make_move (game_id action_type : string) (payload : gmap string Value)
    (player : string) (r : GameRegistry G) : Outcome G :=
  match get_game r game_id with
  | None => {| reply := Text ("Game " +:+ game_id +:+ " not found");
               registry := r; calls := [] |}
  | Some game =>
      let action := {| type := action_type; payload := payload; player := player |} in
      let '(result, game') := game_make_move game action in
      {| reply := report "Move successful: " "Move failed: " result;
         registry := store r game_id game';
         calls := [CallMakeMove game_id action] |}
  end.

Definition get_game_state (game_id : string) (r : GameRegistry G) : Outcome G :=
  match get_game r game_id with
  | None => {| reply := Text ("Game " +:+ game_id +:+ " not found");
               registry := r; calls := [] |}
  | Some game =>
      let state := get_state game in
      {| reply := Text ("Game state: " +:+ model_dump state);
         registry := r; calls := [CallGetState game_id] |}
  end.

Definition reset_game (game_id : string) (r : GameRegistry G) : Outcome G :=
  match get_game r game_id with
  | None => {| reply := Text ("Game " +:+ game_id +:+ " not found");
               registry := r; calls := [] |}
  | Some game =>
      let '(result, game') := reset game in
      {| reply := report "Game reset: " "Reset failed: " result;
         registry := store r game_id game';
         calls := [CallReset game_id] |}
  end.

Definition tic_tac_toe_place_mark (game_id : string) (row col : Z)
    (player : string) (r : GameRegistry G) : Outcome G :=
  let not_found :=
    {| reply := Text ("Tic-tac-toe game " +:+ game_id +:+ " not found");
       registry := r; calls := [] |} in
  match get_game r game_id with
  | None => not_found
  | Some game =>
      if decide (game_type game ≠ "tic-tac-toe") then not_found
      else
        let action := {| type := "place_mark";
                         payload := {[ "row" := VInt row; "col" := VInt col ]};
                         player := player |} in
        let '(result, game') := game_make_move game action in
        {| reply := report "Mark placed: " "Failed to place mark: " result;
           registry := store r game_id game';
           calls := [CallMakeMove game_id action] |}
  end.

(** Gymnasium tools: no test on [game.type]. *)
Definition gym_step (game_id : string) (action : Value) (player : string)
    (r : GameRegistry G) : Outcome G :=
  match get_game r game_id with
  | None => {| reply := Text ("Game " +:+ game_id +:+ " not found");
               registry := r; calls := [] |}
  | Some game =>
      let action_obj := {| type := "gym_step";
                           payload := {[ "action" := action ]};
                           player := player |} in
      let '(result, game') := game_make_move game action_obj in
      {| reply := report "Step successful: " "Step failed: " result;
         registry := store r game_id game';
         calls := [CallMakeMove game_id action_obj] |}
  end.

Definition gym_reset (game_id : string) (r : GameRegistry G) : Outcome G :=
  match get_game r game_id with
  | None => {| reply := Text ("Game " +:+ game_id +:+ " not found");
               registry := r; calls := [] |}
  | Some game =>
      let '(result, game') := reset game in
      {| reply := report "Environment reset: " "Reset failed: " result;
         registry := store r game_id game';
         calls := [CallReset game_id] |}
  end.

Definition cartpole_move_left (game_id player : string) (r : GameRegistry G)
  : Outcome G :=
  let not_found :=
    {| reply := Text ("CartPole game " +:+ game_id +:+ " not found");
       registry := r; calls := [] |} in
  match get_game r game_id with
  | None => not_found
  | Some game =>
      if decide (game_type game ≠ "CartPole-v1") then not_found
      else
        let action_obj := {| type := "gym_step";
                             payload := {[ "action" := VInt 0 ]};
                             player := player |} in
        let '(result, game') := game_make_move game action_obj in
        {| reply := report "Moved left: " "Move failed: " result;
           registry := store r game_id game';
           calls := [CallMakeMove game_id action_obj] |}
  end.

Definition cartpole_move_right (game_id player : string) (r : GameRegistry G)
  : Outcome G :=
  let not_found :=
    {| reply := Text ("CartPole game " +:+ game_id +:+ " not found");
       registry := r; calls := [] |} in
  match get_game r game_id with
  | None => not_found
  | Some game =>
      if decide (game_type game ≠ "CartPole-v1") then not_found
      else
        let action_obj := {| type := "gym_step";
                             payload := {[ "action" := VInt 1 ]};
                             player := player |} in
        let '(result, game') := game_make_move game action_obj in
        {| reply := report "Moved right: " "Move failed: " result;
           registry := store r game_id game';
           calls := [CallMakeMove game_id action_obj] |}
  end.

Definition mountain_car_push_left (game_id player : string) (r : GameRegistry G)
  : Outcome G :=
  let not_found :=
    {| reply := Text ("MountainCar game " +:+ game_id +:+ " not found");
       registry := r; calls := [] |} in
  match get_game r game_id with
  | None => not_found
  | Some game =>
      if decide (game_type game ≠ "MountainCar-v0") then not_found
      else
        let action_obj := {| type := "gym_step";
                             payload := {[ "action" := VInt 0 ]};
                             player := player |} in
        let '(result, game') := game_make_move game action_obj in
        {| reply := report "Pushed left: " "Move failed: " result;
           registry := store r game_id game';
           calls := [CallMakeMove game_id action_obj] |}
  end.

Definition mountain_car_no_push (game_id player : string) (r : GameRegistry G)
  : Outcome G :=
  let not_found :=
    {| reply := Text ("MountainCar game " +:+ game_id +:+ " not found");
       registry := r; calls := [] |} in
  match get_game r game_id with
  | None => not_found
  | Some game =>
      if decide (game_type game ≠ "MountainCar-v0") then not_found
      else
        let action_obj := {| type := "gym_step";
                             payload := {[ "action" := VInt 1 ]};
                             player := player |} in
        let '(result, game') := game_make_move game action_obj in
        {| reply := report "No push: " "Move failed: " result;
           registry := store r game_id game';
           calls := [CallMakeMove game_id action_obj] |}
  end.

Definition mountain_car_push_right (game_id player : string) (r : GameRegistry G)
  : Outcome G :=
  let not_found :=
    {| reply := Text ("MountainCar game " +:+ game_id +:+ " not found");
       registry := r; calls := [] |} in
  match get_game r game_id with
  | None => not_found
  | Some game =>
      if decide (game_type game ≠ "MountainCar-v0") then not_found
      else
        let action_obj := {| type := "gym_step";
                             payload := {[ "action" := VInt 2 ]};
                             player := player |} in
        let '(result, game') := game_make_move game action_obj in
        {| reply := report "Pushed right: " "Move failed: " result;
           registry := store r game_id game';
           calls := [CallMakeMove game_id action_obj] |}
  end.

Definition breakout_noop (game_id player : string) (r : GameRegistry G)
  : Outcome G :=
  let not_found :=
    {| reply := Text ("Breakout game " +:+ game_id +:+ " not found");
       registry := r; calls := [] |} in
  match get_game r game_id with
  | None => not_found
  | Some game =>
      if decide (game_type game ≠ "ALE/Breakout-v5") then not_found
      else
        let action_obj := {| type := "gym_step";
                             payload := {[ "action" := VInt 0 ]};
                             player := player |} in
        let '(result, game') := game_make_move game action_obj in
        {| reply := report "No-op: " "Action failed: " result;
           registry := store r game_id game';
           calls := [CallMakeMove game_id action_obj] |}
  end.

Definition breakout_fire (game_id player : string) (r : GameRegistry G)
  : Outcome G :=
  let not_found :=
    {| reply := Text ("Breakout game " +:+ game_id +:+ " not found");
       registry := r; calls := [] |} in
  match get_game r game_id with
  | None => not_found
  | Some game =>
      if decide (game_type game ≠ "ALE/Breakout-v5") then not_found
      else
        let action_obj := {| type := "gym_step";
                             payload := {[ "action" := VInt 1 ]};
                             player := player |} in
        let '(result, game') := game_make_move game action_obj in
        {| reply := report "Fired: " "Action failed: " result;
           registry := store r game_id game';
           calls := [CallMakeMove game_id action_obj] |}
  end.

Definition breakout_right (game_id player : string) (r : GameRegistry G)
  : Outcome G :=
  let not_found :=
    {| reply := Text ("Breakout game " +:+ game_id +:+ " not found");
       registry := r; calls := [] |} in
  match get_game r game_id with
  | None => not_found
  | Some game =>
      if decide (game_type game ≠ "ALE/Breakout-v5") then not_found
      else
        let action_obj := {| type := "gym_step";
                             payload := {[ "action" := VInt 2 ]};
                             player := player |} in
        let '(result, game') := game_make_move game action_obj in
        {| reply := report "Moved right: " "Action failed: " result;
           registry := store r game_id game';
           calls := [CallMakeMove game_id action_obj] |}
  end.

Definition breakout_left (game_id player : string) (r : GameRegistry G)
  : Outcome G :=
  let not_found :=
    {| reply := Text ("Breakout game " +:+ game_id +:+ " not found");
       registry := r; calls := [] |} in
  match get_game r game_id with
  | None => not_found
  | Some game =>
      if decide (game_type game ≠ "ALE/Breakout-v5") then not_found
      else
        let action_obj := {| type := "gym_step";
                             payload := {[ "action" := VInt 3 ]};
                             player := player |} in
        let '(result, game') := game_make_move game action_obj in
        {| reply := report "Moved left: " "Action failed: " result;
           registry := store r game_id game';
           calls := [CallMakeMove game_id action_obj] |}
  end.
End Handlers.
End Main.

(** ** [src/server.py] *)
Module Server.
Section Handlers.
Context {D G : Type} `{BaseGame D G} `{Rendering D}.
Variable new_id : GameRegistry G → string.

Definition list_games_result (show_active : bool) (r : GameRegistry G)
  : list (string * ListingValue) :=
  let available_games := get_available_games r in
  let result := [("available_games", AvailableGames available_games)] in
  if show_active then
    let active_games := get_active_games r in
    dict_set "active_games" (ActiveGames active_games) result
  else result.

Definition list_games (show_active : bool) (r : GameRegistry G) : Outcome G :=
  {| reply := Text ("Games: " +:+ repr (list_games_result show_active r));
     registry := r; calls := [] |}.

Definition start_game (game_type : string) (players : list string)
    (game_id : option string) (r : GameRegistry G) : Outcome G :=
  let '(result, r1) := create_game new_id r game_type game_id in
  if negb (success result) then
    {| reply := Text ("Error: " +:+ str_error (error result));
       registry := r1; calls := [] |}
  else
    match new_state result with
    | None => {| reply := Raised "AttributeError"; registry := r1; calls := [] |}
    | Some created =>
        match get_game r1 (gs_id created) with
        | None => {| reply := Raised "AttributeError"; registry := r1; calls := [] |}
        | Some game =>
            let '(start_result, game') := start game players in
            {| reply := report "Game started: " "Error starting game: " start_result;
               registry := store r1 (gs_id created) game';
               calls := [CallStart (gs_id created) players] |}
        end
    end.

Definition make_move (game_id action_type : string) (payload : gmap string Value)
    (player : string) (r : GameRegistry G) : Outcome G :=
  match get_game r game_id with
  | None => {| reply := Text ("Game " +:+ game_id +:+ " not found");
               registry := r; calls := [] |}
  | Some game =>
      let action := {| type := action_type; payload := payload; player := player |} in
      let '(result, game') := game_make_move game action in
      {| reply := report "Move successful: " "Move failed: " result;
         registry := store r game_id game';
         calls := [CallMakeMove game_id action] |}
  end.

Definition get_game_state (game_id : string) (r : GameRegistry G) : Outcome G :=
  match get_game r game_id with
  | None => {| reply := Text ("Game " +:+ game_id +:+ " not found");
               registry := r; calls := [] |}
  | Some game =>
      let state := get_state game in
      {| reply := Text ("Game state: " +:+ model_dump state);
         registry := r; calls := [CallGetState game_id] |}
  end.

Definition reset_game (game_id : string) (r : GameRegistry G) : Outcome G :=
  match get_game r game_id with
  | None => {| reply := Text ("Game " +:+ game_id +:+ " not found");
               registry := r; calls := [] |}
  | Some game =>
      let '(result, game') := reset game in
      {| reply := report "Game reset: " "Reset failed: " result;
         registry := store r game_id game';
         calls := [CallReset game_id] |}
  end.

Definition tic_tac_toe_place_mark (game_id : string) (row col : Z)
    (player : string) (r : GameRegistry G) : Outcome G :=
  let not_found :=
    {| reply := Text ("Tic-tac-toe game " +:+ game_id +:+ " not found");
       registry := r; calls := [] |} in
  match get_game r game_id with
  | None => not_found
  | Some game =>
      if decide (game_type game ≠ "tic-tac-toe") then not_found
      else
        let action := {| type := "place_mark";
                         payload := {[ "row" := VInt row; "col" := VInt col ]};
                         player := player |} in
        let '(result, game') := game_make_move game action in
        {| reply := report "Mark placed: " "Failed to place mark: " result;
           registry := store r game_id game';
           calls := [CallMakeMove game_id action] |}
  end.
End Handlers.
End Server.

(** ** The game state machines

    The game classes are not part of the two modules.  This section models
    them from the specification (sections 3, 4.2, 4.2.1 and 4.2.2): one
    session record with a board-game or a simulation-adapter variant.  The
    wrapped environment is the opaque contract of the specification: a
    reset and a step over a hidden state, with observations and rewards of
    types left open. *)
Class Rewards (Reward : Type) := {
  rzero : Reward;
  radd : Reward → Reward → Reward;
}.

Section StateMachines.
Context {Obs EnvSt Reward : Type} `{Rewards Reward}.

(** Modelled from the spec: the wrapped environment,
    [step(action) -> (observation, reward, done, info)] and
    [reset() -> observation], with the size of its discrete action space
    and the player count it requires.  A step that yields [None] is an
    environment fault. *)
Record Environment := {
  env_init : EnvSt;
  env_reset : EnvSt → Obs * EnvSt;
  env_step : Z → EnvSt → option (Obs * Reward * bool * EnvSt);
  n_actions : Z;
  seats : nat;
}.

Inductive Mark := X | O.

(** Modelled from the spec: board-game state, "a fixed-size grid of cell
    values (empty/player-mark), ... whose turn it is", row-major, with the
    recorded outcome. *)
Record Board := {
  grid : list (option Mark);
  turn : nat;
  winner : option string;
  draw : bool;
}.

(** Modelled from the spec: simulation-adapter state, "the last observation
    ..., accumulated episode reward, done flag", plus the environment. *)
Record Sim := {
  env : Environment;
  hidden : EnvSt;
  observation : option Obs;
  episode_reward : Reward;
  done : bool;
}.

Inductive Machine :=
| BoardGame (b : Board)
| Simulation (s : Sim).

(** Modelled from the spec: GameSession, "id, kind, player list, status". *)
Record Game := {
  id : string;
  kind : string;
  players : list string;
  status : Status;
  machine : Machine;
}.

(** The kind-specific part of a snapshot. *)
Inductive KindData :=
| BoardView (b : Board)
| SimView (observation : option Obs) (episode_reward : Reward) (done : bool).

Definition view (m : Machine) : KindData :=
  match m with
  | BoardGame b => BoardView b
  | Simulation s => SimView (observation s) (episode_reward s) (done s)
  end.

(** Modelled from the spec: [current_state()], pure. *)
Definition current_state (g : Game) : GameState KindData :=
  {| gs_id := id g; gs_type := kind g; gs_players := players g;
     gs_status := status g; gs_data := view (machine g) |}.

Definition empty_board : Board :=
  {| grid := replicate 9 None; turn := 0; winner := None; draw := false |}.

Definition required_players (m : Machine) : nat :=
  match m with
  | BoardGame _ => 2
  | Simulation s => seats (env s)
  end.

(** Modelled from the spec: [start(players)], refused with
    [InvalidPlayers] when the player count is not the kind's or the status
    is not [pending]; a refused call changes nothing. *)
Definition start_session (g : Game) (ps : list string)
  : GameResult KindData * Game :=
  if negb (bool_decide (status g = Pending)) then (failure InvalidPlayers, g)
  else if negb (bool_decide (length ps = required_players (machine g)))
  then (failure InvalidPlayers, g)
  else
    let m :=
      match machine g with
      | BoardGame _ => BoardGame empty_board
      | Simulation s =>
          let '(o, h) := env_reset (env s) (hidden s) in
          Simulation {| env := env s; hidden := h; observation := Some o;
                        episode_reward := rzero; done := false |}
      end in
    let g' := {| id := id g; kind := kind g; players := ps;
                 status := InProgress; machine := m |} in
    (ok (current_state g'), g').

Definition lines : list (list nat) :=
  [[0; 1; 2]; [3; 4; 5]; [6; 7; 8];
   [0; 3; 6]; [1; 4; 7]; [2; 5; 8];
   [0; 4; 8]; [2; 4; 6]]%nat.

Definition mark_eqb (a b : Mark) : bool :=
  match a, b with X, X | O, O => true | _, _ => false end.

Definition holds (cells : list (option Mark)) (m : Mark) (i : nat) : bool :=
  match cells !! i with
  | Some (Some m') => mark_eqb m m'
  | _ => false
  end.

Definition vacant (cells : list (option Mark)) (i : nat) : bool :=
  match cells !! i with
  | Some None => true
  | _ => false
  end.

Definition three_in_a_row (cells : list (option Mark)) (m : Mark) : bool :=
  existsb (forallb (holds cells m)) lines.

Definition full (cells : list (option Mark)) : bool :=
  forallb (λ c, match c with Some _ => true | None => false end) cells.

Definition mark_of_turn (t : nat) : Mark :=
  match t with 0%nat => X | _ => O end.

Definition coordinate (p : gmap string Value) (field : string) : option nat :=
  match p !! field with
  | Some (VInt n) => if bool_decide (0 ≤ n < 3) then Some (Z.to_nat n) else None
  | _ => None
  end.

(** Modelled from the spec: the placement action of the board game. *)
Definition place_mark (g : Game) (b : Board) (a : GameAction)
  : GameResult KindData * Game :=
  match coordinate (payload a) "row", coordinate (payload a) "col" with
  | Some row, Some col =>
      let cell := (3 * row + col)%nat in
      if negb (bool_decide (players g !! turn b = Some (player a)))
      then (failure IllegalAction, g)
      else if negb (vacant (grid b) cell)
      then (failure IllegalAction, g)
      else
        let m := mark_of_turn (turn b) in
        let cells := <[cell := Some m]> (grid b) in
        let won := three_in_a_row cells m in
        let over := won || full cells in
        let b' := {| grid := cells; turn := (1 - turn b)%nat;
                     winner := if won then Some (player a) else None;
                     draw := negb won && full cells |} in
        let g' := {| id := id g; kind := kind g; players := players g;
                     status := if over then Finished else InProgress;
                     machine := BoardGame b' |} in
        (ok (current_state g'), g')
  | _, _ => (failure IllegalAction, g)
  end.

(** Modelled from the spec: the step action of the simulation adapter.  An
    action code outside the declared action space is refused without
    touching the environment; a faulting step leaves the session as it was. *)
Definition gym_action (g : Game) (s : Sim) (a : GameAction)
  : GameResult KindData * Game :=
  match payload a !! "action" with
  | Some (VInt n) =>
      if negb (bool_decide (0 ≤ n < n_actions (env s)))
      then (failure IllegalAction, g)
      else
        match env_step (env s) n (hidden s) with
        | None => (failure EnvironmentFault, g)
        | Some (o, rew, d, h) =>
            let s' := {| env := env s; hidden := h; observation := Some o;
                         episode_reward := radd (episode_reward s) rew;
                         done := d |} in
            let g' := {| id := id g; kind := kind g; players := players g;
                         status := if d then Finished else InProgress;
                         machine := Simulation s' |} in
            (ok (current_state g'), g')
        end
  | _ => (failure IllegalAction, g)
  end.

(** Modelled from the spec: [apply_action(action)], refused with
    [IllegalAction] when the session is not [in_progress], the player is
    not a participant or the tag is not in the kind's vocabulary. *)
Definition apply_action (g : Game) (a : GameAction)
  : GameResult KindData * Game :=
  if negb (bool_decide (status g = InProgress)) then (failure IllegalAction, g)
  else if negb (bool_decide (player a ∈ players g)) then (failure IllegalAction, g)
  else
    match machine g with
    | BoardGame b =>
        if bool_decide (type a = "place_mark") then place_mark g b a
        else (failure IllegalAction, g)
    | Simulation s =>
        if bool_decide (type a = "gym_step") then gym_action g s a
        else (failure IllegalAction, g)
    end.

(** Modelled from the spec: [reset()], which "always succeeds; status
    becomes pending (board games) or immediately in_progress with a fresh
    initial observation (simulation adapters)". *)
Definition reset_session (g : Game) : GameResult KindData * Game :=
  let g' :=
    match machine g with
    | BoardGame _ =>
        {| id := id g; kind := kind g; players := players g;
           status := Pending; machine := BoardGame empty_board |}
    | Simulation s =>
        let '(o, h) := env_reset (env s) (hidden s) in
        {| id := id g; kind := kind g; players := players g;
           status := InProgress;
           machine := Simulation {| env := env s; hidden := h;
                                    observation := Some o;
                                    episode_reward := rzero; done := false |} |}
    end in
  (ok (current_state g'), g').

#[local] Instance spec_game : BaseGame KindData Game := {
  game_type := kind;
  start := start_session;
  game_make_move := apply_action;
  get_state := current_state;
  reset := reset_session;
}.

(** Modelled from the spec: the factories, which build a session "in
    pending status". *)
Definition new_board_game (name key : string) : Game :=
  {| id := key; kind := name; players := []; status := Pending;
     machine := BoardGame empty_board |}.

Definition new_simulation (name : string) (e : Environment) (key : string) : Game :=
  {| id := key; kind := name; players := []; status := Pending;
     machine := Simulation {| env := e; hidden := env_init e;
                              observation := None; episode_reward := rzero;
                              done := false |} |}.

(** The registration table: tic-tac-toe and one simulation adapter per
    named environment. *)
Definition registration (envs : list (string * Environment))
  : list (string * (string → Game)) :=
  ("tic-tac-toe", new_board_game "tic-tac-toe")
    :: map (λ ne, (ne.1, new_simulation ne.1 ne.2)) envs.
End StateMachines.

Arguments Game : clear implicits.
Arguments KindData : clear implicits.
Arguments Environment : clear implicits.
Arguments Sim : clear implicits.
Arguments Machine : clear implicits.
#[global] Existing Instance spec_game.

(** ** A concrete instance

    An environment, an id generator and renderers to run the handlers on:
    the environment counts its steps, pays one unit per step and is done
    after the third; ids are the first strings not yet live. *)
Module Sample.
Definition counter : Environment Z Z Z :=
  {| env_init := 0;
     env_reset := λ _, (0, 0);
     env_step := λ _ n, Some (n + 1, 1, bool_decide (3 ≤ n + 1), n + 1);
     n_actions := 2;
     seats := 1 |}.

#[global] Instance unit_rewards : Rewards Z := {| rzero := 0; radd := Z.add |}.

Abbreviation SampleGame := (Game Z Z Z).

Definition status_name (s : Status) : string :=
  match s with
  | Pending => "pending"
  | InProgress => "in_progress"
  | Finished => "finished"
  end.

Definition error_name (e : Error) : string :=
  match e with
  | UnknownKind k => "UnknownKind " +:+ k
  | DuplicateId i => "DuplicateId " +:+ i
  | NotFound i => "NotFound " +:+ i
  | KindMismatch i => "KindMismatch " +:+ i
  | InvalidPlayers => "InvalidPlayers"
  | IllegalAction => "IllegalAction"
  | EnvironmentFault => "EnvironmentFault"
  end.

#[global] Instance sample_rendering : Rendering (KindData Z Z) := {
  model_dump := λ st, gs_id st +:+ " " +:+ gs_type st +:+ " " +:+ status_name (gs_status st);
  describe := error_name;
  repr := λ d, String.concat ", " d.*1;
}.

Definition sample_id (r : GameRegistry SampleGame) : string :=
  fresh (dom (games r)).

Definition table : list (string * (string → SampleGame)) :=
  registration [("CartPole-v1", counter)].

Definition empty_registry : GameRegistry SampleGame :=
  {| factories := table; games := ∅ |}.

(** The session object of ["g1"] once ["ann"] and ["bob"] have started it. *)
Definition started_board : SampleGame :=
  {| id := "g1"; kind := "tic-tac-toe"; players := ["ann"; "bob"];
     status := InProgress; machine := BoardGame empty_board |}.

(** The registry after ["ann"] and ["bob"] have started the tic-tac-toe
    session ["g1"]: it holds [started_board] under that key. *)
Definition one_started : GameRegistry SampleGame :=
  registry (Main.start_game sample_id "tic-tac-toe" ["ann"; "bob"] (Some "g1")
              empty_registry).

(** A placement on ["g1"], keeping the registry it leaves. *)
Definition place (row col : Z) (who : string) (r : GameRegistry SampleGame)
  : GameRegistry SampleGame :=
  registry (Main.tic_tac_toe_place_mark "g1" row col who r).

(** ["ann"] takes the top row while ["bob"] plays the middle one. *)
Definition top_row_won : GameRegistry SampleGame :=
  place 0 2 "ann" (place 1 1 "bob" (place 0 1 "ann" (place 1 0 "bob"
    (place 0 0 "ann" one_started)))).

(** Next to ["g1"], a started session ["c1"] over the counting environment. *)
Definition with_cart : GameRegistry SampleGame :=
  registry (Main.start_game sample_id "CartPole-v1" ["ann"] (Some "c1") one_started).

Definition left (r : GameRegistry SampleGame) : GameRegistry SampleGame :=
  registry (Main.cartpole_move_left "c1" "ann" r).
End Sample.

(** ** The convenience tools as one family

    The eleven tools of [src/main.py] that fix an action tag and a payload,
    with the constants each of them is written with: the kind it tests
    [game.type] against (none for [gym_step]), the wording of its "not
    found" message, its two reply prefixes, and the action it builds. *)
Inductive Convenience :=
| TicTacToePlaceMark (row col : Z)
| GymStep (action : Value)
| CartpoleMoveLeft
| CartpoleMoveRight
| MountainCarPushLeft
| MountainCarNoPush
| MountainCarPushRight
| BreakoutNoop
| BreakoutFire
| BreakoutRight
| BreakoutLeft.

Definition guard (c : Convenience) : option string :=
  match c with
  | TicTacToePlaceMark _ _ => Some "tic-tac-toe"
  | GymStep _ => None
  | CartpoleMoveLeft | CartpoleMoveRight => Some "CartPole-v1"
  | MountainCarPushLeft | MountainCarNoPush | MountainCarPushRight =>
      Some "MountainCar-v0"
  | BreakoutNoop | BreakoutFire | BreakoutRight | BreakoutLeft =>
      Some "ALE/Breakout-v5"
  end.

Definition not_found_text (c : Convenience) (game_id : string) : string :=
  match c with
  | TicTacToePlaceMark _ _ => "Tic-tac-toe game " +:+ game_id +:+ " not found"
  | GymStep _ => "Game " +:+ game_id +:+ " not found"
  | CartpoleMoveLeft | CartpoleMoveRight =>
      "CartPole game " +:+ game_id +:+ " not found"
  | MountainCarPushLeft | MountainCarNoPush | MountainCarPushRight =>
      "MountainCar game " +:+ game_id +:+ " not found"
  | BreakoutNoop | BreakoutFire | BreakoutRight | BreakoutLeft =>
      "Breakout game " +:+ game_id +:+ " not found"
  end.

Definition good_prefix (c : Convenience) : string :=
  match c with
  | TicTacToePlaceMark _ _ => "Mark placed: "
  | GymStep _ => "Step successful: "
  | CartpoleMoveLeft => "Moved left: "
  | CartpoleMoveRight => "Moved right: "
  | MountainCarPushLeft => "Pushed left: "
  | MountainCarNoPush => "No push: "
  | MountainCarPushRight => "Pushed right: "
  | BreakoutNoop => "No-op: "
  | BreakoutFire => "Fired: "
  | BreakoutRight => "Moved right: "
  | BreakoutLeft => "Moved left: "
  end.

Definition bad_prefix (c : Convenience) : string :=
  match c with
  | TicTacToePlaceMark _ _ => "Failed to place mark: "
  | GymStep _ => "Step failed: "
  | CartpoleMoveLeft | CartpoleMoveRight => "Move failed: "
  | MountainCarPushLeft | MountainCarNoPush | MountainCarPushRight =>
      "Move failed: "
  | BreakoutNoop | BreakoutFire | BreakoutRight | BreakoutLeft =>
      "Action failed: "
  end.

Definition tag (c : Convenience) : string :=
  match c with
  | TicTacToePlaceMark _ _ => "place_mark"
  | _ => "gym_step"
  end.

Definition fixed_payload (c : Convenience) : gmap string Value :=
  match c with
  | TicTacToePlaceMark row col => {[ "row" := VInt row; "col" := VInt col ]}
  | GymStep action => {[ "action" := action ]}
  | CartpoleMoveLeft | MountainCarPushLeft | BreakoutNoop => {[ "action" := VInt 0 ]}
  | CartpoleMoveRight | MountainCarNoPush | BreakoutFire => {[ "action" := VInt 1 ]}
  | MountainCarPushRight | BreakoutRight => {[ "action" := VInt 2 ]}
  | BreakoutLeft => {[ "action" := VInt 3 ]}
  end.

Definition fixed_action (c : Convenience) (who : string) : GameAction :=
  {| type := tag c; payload := fixed_payload c; player := who |}.

Section Family.
Context {D G : Type} `{BaseGame D G} `{Rendering D}.

(** The tool named by [c], called on [game_id] by [who]. *)
Definition run (c : Convenience) (game_id who : string) (r : GameRegistry G)
  : Outcome G :=
  match c with
  | TicTacToePlaceMark row col => Main.tic_tac_toe_place_mark game_id row col who r
  | GymStep action => Main.gym_step game_id action who r
  | CartpoleMoveLeft => Main.cartpole_move_left game_id who r
  | CartpoleMoveRight => Main.cartpole_move_right game_id who r
  | MountainCarPushLeft => Main.mountain_car_push_left game_id who r
  | MountainCarNoPush => Main.mountain_car_no_push game_id who r
  | MountainCarPushRight => Main.mountain_car_push_right game_id who r
  | BreakoutNoop => Main.breakout_noop game_id who r
  | BreakoutFire => Main.breakout_fire game_id who r
  | BreakoutRight => Main.breakout_right game_id who r
  | BreakoutLeft => Main.breakout_left game_id who r
  end.

(** [game] passes the test the tool makes on [game.type]. *)
Definition lets_through (c : Convenience) (game : G) : Prop :=
  match guard c with
  | Some k => game_type game = k
  | None => True
  end.

(** The factories of [r] build a pending session that knows its key. *)
Definition sound_factories (r : GameRegistry G) : Prop :=
  ∀ name f key, dict_get name (factories r) = Some f →
    gs_id (get_state (f key)) = key ∧ gs_status (get_state (f key)) = Pending.
End Family.

(** ** The tools that address one session

    The tools of [src/main.py] that take a [game_id] and act on the session
    it names, as one family: [make_move], [get_game_state], [reset_game],
    [gym_reset] and the convenience tools. *)
Inductive Tool :=
| MakeMove (action_type : string) (payload : gmap string Value) (who : string)
| GetGameState
| ResetGame
| GymReset
| Sugar (c : Convenience) (who : string).

(** The prefix of the reply a tool gives when the method it called reports
    [success = False]; [get_game_state] has no such reply. *)
Definition refusal_prefix (t : Tool) : option string :=
  match t with
  | MakeMove _ _ _ => Some "Move failed: "
  | GetGameState => None
  | ResetGame | GymReset => Some "Reset failed: "
  | Sugar c _ => Some (bad_prefix c)
  end.

(** The session a method call was made on. *)
Definition call_key (c : Call) : string :=
  match c with
  | CallStart key _ | CallMakeMove key _ | CallGetState key | CallReset key => key
  end.

(** What a client does with a reply: [text.startswith(prefix)]. *)
Fixpoint starts_with (prefix text : string) : bool :=
  match prefix with
  | EmptyString => true
  | String a prefix' =>
      match text with
      | EmptyString => false
      | String b text' => Ascii.eqb a b && starts_with prefix' text'
      end
  end.

Definition reply_starts_with (prefix : string) (rep : Reply) : bool :=
  match rep with
  | Text text => starts_with prefix text
  | Raised _ => false
  end.

Section Tools.
Context {D G : Type} `{BaseGame D G} `{Rendering D}.

(** The tool [t] called on [game_id]. *)
Definition invoke (t : Tool) (game_id : string) (r : GameRegistry G) : Outcome G :=
  match t with
  | MakeMove action_type payload who => Main.make_move game_id action_type payload who r
  | GetGameState => Main.get_game_state game_id r
  | ResetGame => Main.reset_game game_id r
  | GymReset => Main.gym_reset game_id r
  | Sugar c who => run c game_id who r
  end.

(** The test a convenience tool makes on [game.type], as a boolean. *)
Definition passes (c : Convenience) (game : G) : bool :=
  match guard c with
  | Some k => bool_decide (game_type game = k)
  | None => true
  end.

(** The result of the method that [t] calls on the session object [game]:
    none for [get_game_state], which formats the snapshot, and none for a
    convenience tool whose test on [game.type] turns [game] away. *)
Definition method_result (t : Tool) (game : G) : option (GameResult D) :=
  match t with
  | MakeMove action_type payload who =>
      Some (game_make_move game
              {| type := action_type; payload := payload; player := who |}).1
  | GetGameState => None
  | ResetGame | GymReset => Some (reset game).1
  | Sugar c who =>
      if passes c game then Some (game_make_move game (fixed_action c who)).1
      else None
  end.
End Tools.

(** * Properties of the handlers *)

Section HandlerFacts.
Context {D G : Type} `{BaseGame D G} `{Rendering D}.
Variable new_id : GameRegistry G → string.

Lemma store_same (r : GameRegistry G) key game :
  games r !! key = Some game → store r key game = r.
Proof.
  intros Hlive. destruct r as [fs gs]; unfold store; simpl in *.
  f_equal. by apply insert_id.
Qed.

Lemma store_lookup (r : GameRegistry G) key game :
  get_game (store r key game) key = Some game.
Proof. unfold get_game, store; simpl. apply lookup_insert_eq. Qed.

Lemma store_lookup_other (r : GameRegistry G) key key' game :
  key ≠ key' → get_game (store r key game) key' = get_game r key'.
Proof. intros Hne. unfold get_game, store; simpl. by apply lookup_insert_ne. Qed.

(** What [create_game] answers when it refuses. *)
Lemma create_game_refusal (r : GameRegistry G) game_type game_id :
  success (create_game new_id r game_type game_id).1 = false →
  (create_game new_id r game_type game_id).2 = r ∧
  ((dict_get game_type (factories r) = None ∧
    (create_game new_id r game_type game_id).1 = failure (UnknownKind game_type)) ∨
   (∃ key, game_id = Some key ∧ is_Some (games r !! key) ∧
    (create_game new_id r game_type game_id).1 = failure (DuplicateId key))).
Proof.
  unfold create_game.
  destruct (dict_get game_type (factories r)) as [f|] eqn:Hkind.
  - destruct game_id as [key|]; [|simpl; discriminate].
    destruct (decide (is_Some (games r !! key))) as [Hlive|Hfree]; simpl.
    + intros _. split; [done|]. right. by exists key.
    + discriminate.
  - intros _. split; [done|]. by left.
Qed.

(** The tools that test [game.type] run the shared body once the test
    passes; [gym_step] runs it for every live session. *)
Lemma run_let_through c game_id who (r : GameRegistry G) game :
  get_game r game_id = Some game → lets_through c game →
  run c game_id who r =
    {| reply := report (good_prefix c) (bad_prefix c)
                  (game_make_move game (fixed_action c who)).1;
       registry := store r game_id (game_make_move game (fixed_action c who)).2;
       calls := [CallMakeMove game_id (fixed_action c who)] |}.
Proof.
  intros Hlive Hkind.
  destruct c; unfold lets_through in Hkind; simpl in Hkind; simpl;
    [ unfold Main.tic_tac_toe_place_mark | unfold Main.gym_step
    | unfold Main.cartpole_move_left | unfold Main.cartpole_move_right
    | unfold Main.mountain_car_push_left | unfold Main.mountain_car_no_push
    | unfold Main.mountain_car_push_right | unfold Main.breakout_noop
    | unfold Main.breakout_fire | unfold Main.breakout_right
    | unfold Main.breakout_left ];
    rewrite Hlive; try (destruct (decide _) as [Hne|_]; [by destruct Hne|]);
    unfold fixed_action; simpl;
    by destruct (game_make_move game _) as [result game'].
Qed.

Lemma run_missing c game_id who (r : GameRegistry G) :
  get_game r game_id = None →
  run c game_id who r =
    {| reply := Text (not_found_text c game_id); registry := r; calls := [] |}.
Proof.
  intros Hmissing.
  destruct c; simpl;
    [ unfold Main.tic_tac_toe_place_mark | unfold Main.gym_step
    | unfold Main.cartpole_move_left | unfold Main.cartpole_move_right
    | unfold Main.mountain_car_push_left | unfold Main.mountain_car_no_push
    | unfold Main.mountain_car_push_right | unfold Main.breakout_noop
    | unfold Main.breakout_fire | unfold Main.breakout_right
    | unfold Main.breakout_left ];
    by rewrite Hmissing.
Qed.

Lemma make_move_live game_id action_type payload who (r : GameRegistry G) game :
  get_game r game_id = Some game →
  let action := {| type := action_type; payload := payload; player := who |} in
  Main.make_move game_id action_type payload who r =
    {| reply := report "Move successful: " "Move failed: "
                  (game_make_move game action).1;
       registry := store r game_id (game_make_move game action).2;
       calls := [CallMakeMove game_id action] |}.
Proof.
  intros Hlive action. unfold Main.make_move. rewrite Hlive.
  fold action. by destruct (game_make_move game action).
Qed.

(** C1 (as amended): a tool that tests [game.type], called on a live
    session of another kind, answers with its own "... game <id> not found"
    text, leaves the registry as it was and calls no method of any session. *)
Theorem guarded_tool_rejects_other_kind c k game_id who (r : GameRegistry G) game :
  guard c = Some k →
  get_game r game_id = Some game →
  game_type game ≠ k →
  run c game_id who r =
    {| reply := Text (not_found_text c game_id); registry := r; calls := [] |}.
Proof.
  intros Hguard Hlive Hother.
  destruct c; simpl in Hguard; try discriminate;
    injection Hguard as <-; simpl;
    [ unfold Main.tic_tac_toe_place_mark
    | unfold Main.cartpole_move_left | unfold Main.cartpole_move_right
    | unfold Main.mountain_car_push_left | unfold Main.mountain_car_no_push
    | unfold Main.mountain_car_push_right | unfold Main.breakout_noop
    | unfold Main.breakout_fire | unfold Main.breakout_right
    | unfold Main.breakout_left ];
    rewrite Hlive; by destruct (decide _).
Qed.

(** C2 (as amended): on a session the tool's test on [game.type] lets
    through, or on an id that is not live, a convenience tool makes the same
    method call and leaves the same registry as [make_move] given the tool's
    tag and payload; the two replies carry the same snapshot or error, each
    under its own prefix, and their "not found" wording is each tool's own. *)
Theorem convenience_matches_make_move c game_id who (r : GameRegistry G) :
  (∀ game, get_game r game_id = Some game → lets_through c game) →
  let sugar := run c game_id who r in
  let plain := Main.make_move game_id (tag c) (fixed_payload c) who r in
  registry sugar = registry plain ∧
  calls sugar = calls plain ∧
  match get_game r game_id with
  | Some game =>
      let result := (game_make_move game (fixed_action c who)).1 in
      reply sugar = report (good_prefix c) (bad_prefix c) result ∧
      reply plain = report "Move successful: " "Move failed: " result
  | None =>
      reply sugar = Text (not_found_text c game_id) ∧
      reply plain = Text ("Game " +:+ game_id +:+ " not found")
  end.
Proof.
  intros Hkind sugar plain. subst sugar plain.
  destruct (get_game r game_id) as [game|] eqn:Hlive.
  - rewrite (run_let_through c game_id who r game Hlive (Hkind game eq_refl)).
    rewrite (make_move_live game_id (tag c) (fixed_payload c) who r game Hlive).
    by simpl.
  - rewrite (run_missing c game_id who r Hlive).
    unfold Main.make_move. rewrite Hlive. by simpl.
Qed.

(** C3: for an id that is not in the live-session map, [make_move],
    [get_game_state] and [reset_game] answer "Game <id> not found", change
    neither the registry nor any session, and call no session method. *)
Theorem unknown_id_not_found game_id action_type payload who (r : GameRegistry G) :
  games r !! game_id = None →
  let missing :=
    {| reply := Text ("Game " +:+ game_id +:+ " not found");
       registry := r; calls := [] |} in
  Main.make_move game_id action_type payload who r = missing ∧
  Main.get_game_state game_id r = missing ∧
  Main.reset_game game_id r = missing.
Proof.
  intros Hmissing missing.
  unfold Main.make_move, Main.get_game_state, Main.reset_game, get_game.
  by rewrite Hmissing.
Qed.

(** C4: when [create_game] refuses, with [UnknownKind] for a kind that is
    not registered or [DuplicateId] for an explicit id that is live,
    [start_game] answers "Error: " followed by that error, calls [start] on
    no session and leaves the registry as it was. *)
Theorem start_game_creation_error game_type players game_id (r : GameRegistry G) :
  success (create_game new_id r game_type game_id).1 = false →
  ∃ e,
    (create_game new_id r game_type game_id).1 = failure e ∧
    ((dict_get game_type (factories r) = None ∧ e = UnknownKind game_type) ∨
     (∃ key, game_id = Some key ∧ is_Some (games r !! key) ∧ e = DuplicateId key)) ∧
    Main.start_game new_id game_type players game_id r =
      {| reply := Text ("Error: " +:+ describe e); registry := r; calls := [] |}.
Proof.
  intros Hrefused.
  destruct (create_game_refusal r game_type game_id Hrefused) as [Hsame Hwhy].
  unfold Main.start_game.
  destruct (create_game new_id r game_type game_id) as [result r1] eqn:Hcreate.
  simpl in *. subst r1.
  destruct Hwhy as [[Hkind ->]|(key & -> & Hlive & ->)]; simpl.
  - exists (UnknownKind game_type). split; [done|]. split; [by left|done].
  - exists (DuplicateId key). split; [done|]. split; [|done].
    right. by exists key.
Qed.

(** C5: the dictionary [list_games] prints always holds the available kind
    names under "available_games"; it holds the mapping of live session id to
    (kind, status) under "active_games" when [show_active] is true and has no
    such key otherwise.  The registry is left as it was. *)
Theorem list_games_contents show_active (r : GameRegistry G) :
  let result := Main.list_games_result show_active r in
  Main.list_games show_active r =
    {| reply := Text ("Games: " +:+ repr result); registry := r; calls := [] |} ∧
  dict_get "available_games" result = Some (AvailableGames (get_available_games r)) ∧
  dict_get "active_games" result =
    (if show_active then Some (ActiveGames (get_active_games r)) else None).
Proof. by destruct show_active. Qed.

(** The listing maps exactly the live ids, each to its kind and status. *)
Lemma get_active_games_lookup (r : GameRegistry G) key :
  get_active_games r !! key =
    (λ game, (game_type game, gs_status (get_state game))) <$> get_game r key.
Proof. unfold get_active_games, get_game. apply lookup_fmap. Qed.

(** C8: for a live session, [get_game_state] answers with the dump of the
    snapshot of the object as it is stored, never with a failure, and leaves
    the registry and the session as they were. *)
Theorem get_game_state_live game_id (r : GameRegistry G) game :
  get_game r game_id = Some game →
  Main.get_game_state game_id r =
    {| reply := Text ("Game state: " +:+ model_dump (get_state game));
       registry := r; calls := [CallGetState game_id] |} ∧
  get_game (registry (Main.get_game_state game_id r)) game_id = Some game.
Proof.
  intros Hlive. unfold Main.get_game_state. by rewrite Hlive.
Qed.

(** C9: the six handlers that [src/main.py] and [src/server.py] both define
    give, on the same registry and arguments, the same reply, the same
    registry and the same method calls. *)
Theorem main_server_agree :
  (∀ show_active (r : GameRegistry G),
     Main.list_games show_active r = Server.list_games show_active r) ∧
  (∀ game_type players game_id (r : GameRegistry G),
     Main.start_game new_id game_type players game_id r =
     Server.start_game new_id game_type players game_id r) ∧
  (∀ game_id action_type payload who (r : GameRegistry G),
     Main.make_move game_id action_type payload who r =
     Server.make_move game_id action_type payload who r) ∧
  (∀ game_id (r : GameRegistry G),
     Main.get_game_state game_id r = Server.get_game_state game_id r) ∧
  (∀ game_id (r : GameRegistry G),
     Main.reset_game game_id r = Server.reset_game game_id r) ∧
  (∀ game_id row col who (r : GameRegistry G),
     Main.tic_tac_toe_place_mark game_id row col who r =
     Server.tic_tac_toe_place_mark game_id row col who r).
Proof. repeat split. Qed.
End HandlerFacts.

(** * Properties that rest on the state machines *)

Section MachineFacts.
Context {Obs EnvSt Reward : Type} `{Rewards Reward}.
Context `{Rendering (KindData Obs Reward)}.
Variable new_id : GameRegistry (Game Obs EnvSt Reward) → string.

Implicit Types g : Game Obs EnvSt Reward.
Implicit Types r : GameRegistry (Game Obs EnvSt Reward).

Lemma well_formed_ok {D} (st : GameState D) : well_formed (ok st).
Proof. left. unfold ok; simpl. eauto. Qed.

Lemma well_formed_failure {D} (e : Error) : well_formed (failure (D:=D) e).
Proof. right. unfold failure; simpl. eauto. Qed.

Create HintDb results.
#[local] Hint Resolve well_formed_ok well_formed_failure : results.

(** A method of the state machine answers [ok] with the snapshot of the
    object it leaves, or [failure] and leaves the object as it was. *)
Definition committed g (out : GameResult (KindData Obs Reward) * Game Obs EnvSt Reward)
  : Prop :=
  out.1 = ok (current_state out.2) ∨ (∃ e, out.1 = failure e ∧ out.2 = g).

Lemma start_session_committed g ps : committed g (start_session g ps).
Proof.
  unfold start_session, committed.
  destruct (negb (bool_decide (status g = Pending))); [right; eauto|].
  destruct (negb (bool_decide (length ps = required_players (machine g))));
    [right; eauto|].
  by left.
Qed.

Lemma place_mark_committed g b a : committed g (place_mark g b a).
Proof.
  unfold place_mark, committed.
  destruct (coordinate (payload a) "row") as [row|]; [|right; eauto].
  destruct (coordinate (payload a) "col") as [col|]; [|right; eauto].
  destruct (negb (bool_decide _)); [right; eauto|].
  destruct (negb (vacant _ _)); [right; eauto|].
  by left.
Qed.

Lemma gym_action_committed g s a : committed g (gym_action g s a).
Proof.
  unfold gym_action, committed.
  destruct (payload a !! "action") as [[n| | |]|]; try (right; eauto; fail).
  destruct (negb (bool_decide _)); [right; eauto|].
  destruct (env_step (env s) n (hidden s)) as [[[[o rew] d] h]|];
    [by left|right; eauto].
Qed.

Lemma apply_action_committed g a : committed g (apply_action g a).
Proof.
  unfold apply_action.
  destruct (negb (bool_decide (status g = InProgress))); [right; eauto|].
  destruct (negb (bool_decide (player a ∈ players g))); [right; eauto|].
  destruct (machine g) as [b|s].
  - destruct (bool_decide _); [apply place_mark_committed|right; eauto].
  - destruct (bool_decide _); [apply gym_action_committed|right; eauto].
Qed.

Lemma reset_session_ok g :
  (reset_session g).1 = ok (current_state (reset_session g).2).
Proof.
  unfold reset_session. destruct (machine g) as [b|s]; [done|].
  by destruct (env_reset (env s) (hidden s)).
Qed.

Lemma committed_well_formed g out : committed g out → well_formed out.1.
Proof. intros [->|(e & -> & _)]; auto with results. Qed.

(** A refused [start] is refused with [InvalidPlayers]. *)
Lemma start_session_refused g ps :
  success (start_session g ps).1 = false →
  start_session g ps = (failure InvalidPlayers, g).
Proof.
  unfold start_session.
  destruct (negb (bool_decide (status g = Pending))); [done|].
  destruct (negb (bool_decide (length ps = required_players (machine g))));
    [done|].
  simpl. discriminate.
Qed.

(** The registration table builds pending sessions that know their key. *)
Lemma registration_sound r envs :
  factories r = registration envs → sound_factories r.
Proof.
  intros Htable name f key. rewrite Htable. unfold registration. simpl.
  destruct (decide ("tic-tac-toe" = name)) as [_|_].
  { intros [= <-]. done. }
  clear Htable. induction envs as [|[n e] envs IH]; simpl; [done|].
  destruct (decide (n = name)) as [_|_]; [|exact IH].
  intros [= <-]. done.
Qed.

(** C6: for a live session, [reset_game] answers "Game reset: " followed by
    the dump of the kind's starting snapshot, which is also the snapshot of
    the session it leaves: an empty grid in [pending] status for a board
    game, the environment's fresh observation with no accumulated reward in
    [in_progress] status for a simulation adapter.  The reply is never the
    "Reset failed: " one. *)
Theorem reset_game_live game_id r g :
  get_game r game_id = Some g →
  ∃ fresh,
    (reset_session g).1 = ok fresh ∧
    Main.reset_game game_id r =
      {| reply := Text ("Game reset: " +:+ model_dump fresh);
         registry := store r game_id (reset_session g).2;
         calls := [CallReset game_id] |} ∧
    current_state (reset_session g).2 = fresh ∧
    gs_id fresh = id g ∧ gs_type fresh = kind g ∧
    match machine g with
    | BoardGame _ =>
        gs_status fresh = Pending ∧ gs_data fresh = BoardView empty_board
    | Simulation s =>
        gs_status fresh = InProgress ∧
        gs_data fresh = SimView (Some (env_reset (env s) (hidden s)).1) rzero false
    end.
Proof.
  intros Hlive. exists (current_state (reset_session g).2).
  split; [apply reset_session_ok|].
  split.
  { unfold Main.reset_game. rewrite Hlive.
    change (reset g) with (reset_session g).
    pose proof (reset_session_ok g) as Hok.
    destruct (reset_session g) as [result g']; simpl in *.
    by subst result. }
  split; [done|].
  unfold reset_session. destruct (machine g) as [b|s]; simpl; [done|].
  by destruct (env_reset (env s) (hidden s)).
Qed.

(** C7: the result of [start], of [make_move] and of [reset] on a session has
    exactly one of snapshot and error populated: a snapshot and no error
    when [success] is true, an error and no snapshot when it is false. *)
Theorem results_one_sided g ps a :
  well_formed (start_session g ps).1 ∧
  well_formed (apply_action g a).1 ∧
  well_formed (reset_session g).1.
Proof.
  split; [|split].
  - apply (committed_well_formed g), start_session_committed.
  - apply (committed_well_formed g), apply_action_committed.
  - rewrite reset_session_ok. auto with results.
Qed.

(** The result of [create_game] is one-sided too. *)
Lemma create_game_well_formed r game_type game_id :
  well_formed (create_game new_id r game_type game_id).1.
Proof.
  unfold create_game.
  destruct (dict_get game_type (factories r)); [|simpl; auto with results].
  destruct game_id as [key|]; [|simpl; auto with results].
  destruct (decide _); simpl; auto with results.
Qed.

(** After a move the handler reports as successful, [get_game_state] shows
    the snapshot that move returned. *)
Lemma state_follows_move game_id action_type payload who r g st :
  get_game r game_id = Some g →
  (apply_action g {| type := action_type; payload := payload; player := who |}).1
    = ok st →
  reply (Main.get_game_state game_id
           (registry (Main.make_move game_id action_type payload who r)))
    = Text ("Game state: " +:+ model_dump st).
Proof.
  intros Hlive Hok.
  rewrite (make_move_live game_id action_type payload who r g Hlive). simpl.
  unfold Main.get_game_state. rewrite store_lookup. simpl.
  destruct (apply_action_committed g
              {| type := action_type; payload := payload; player := who |})
    as [Hcommit|(e & Hrefused & _)].
  - rewrite Hcommit in Hok. by injection Hok as ->.
  - rewrite Hrefused in Hok. discriminate.
Qed.

(** C10: when [create_game] has inserted a new session and [start] refuses
    the players, [start_game] answers "Error starting game: " with the start
    error and the new session stays in the registry, unchanged and in
    [pending] status. *)
Theorem failed_start_keeps_session game_type players game_id r f :
  sound_factories r →
  dict_get game_type (factories r) = Some f →
  (∀ key, game_id = Some key → games r !! key = None) →
  let key := default (new_id r) game_id in
  success (start_session (f key) players).1 = false →
  let o := Main.start_game new_id game_type players game_id r in
  success (create_game new_id r game_type game_id).1 = true ∧
  reply o = Text ("Error starting game: " +:+ describe InvalidPlayers) ∧
  calls o = [CallStart key players] ∧
  registry o = store r key (f key) ∧
  get_game (registry o) key = Some (f key) ∧
  status (f key) = Pending.
Proof.
  intros Hsound Hkind Hfree key Hrefused o.
  destruct (Hsound game_type f key Hkind) as [Hid Hpending]. simpl in Hid, Hpending.
  assert (create_game new_id r game_type game_id
          = (ok (current_state (f key)), store r key (f key))) as Hcreate.
  { unfold create_game. rewrite Hkind. subst key.
    destruct game_id as [k|]; simpl; [|done].
    destruct (decide (is_Some (games r !! k))) as [Hlive|_]; [|done].
    rewrite (Hfree k eq_refl) in Hlive. by destruct Hlive. }
  assert (o = {| reply := Text ("Error starting game: " +:+ describe InvalidPlayers);
                 registry := store r key (f key);
                 calls := [CallStart key players] |}) as ->.
  { subst o. unfold Main.start_game. rewrite Hcreate. simpl.
    rewrite Hid, store_lookup. simpl.
    rewrite (start_session_refused (f key) players Hrefused). simpl.
    f_equal. apply store_same. apply (store_lookup r key (f key)). }
  rewrite Hcreate. simpl. rewrite store_lookup. done.
Qed.
End MachineFacts.

(** * The handlers at work

    Runs of the handlers over the state machines: the behaviours the
    specification lists as testable (section 8). *)

Example win_ends_the_game :
  reply (Main.get_game_state "g1" Sample.top_row_won)
    = Text "Game state: g1 tic-tac-toe finished" ∧
  (winner <$> (match machine <$> get_game Sample.top_row_won "g1" with
               | Some (BoardGame b) => Some b
               | _ => None
               end)) = Some (Some "ann") ∧
  Main.tic_tac_toe_place_mark "g1" 2 2 "bob" Sample.top_row_won =
    {| reply := Text "Failed to place mark: IllegalAction";
       registry := Sample.top_row_won;
       calls := [CallMakeMove "g1" (fixed_action (TicTacToePlaceMark 2 2) "bob")] |}.
Proof. vm_compute. repeat split. Qed.

Example occupied_or_out_of_turn :
  reply (Main.tic_tac_toe_place_mark "g1" 0 0 "bob" Sample.one_started)
    = Text "Failed to place mark: IllegalAction" ∧
  reply (Main.tic_tac_toe_place_mark "g1" 0 0 "bob"
           (Sample.place 0 0 "ann" Sample.one_started))
    = Text "Failed to place mark: IllegalAction" ∧
  reply (Main.tic_tac_toe_place_mark "g1" 0 3 "ann" Sample.one_started)
    = Text "Failed to place mark: IllegalAction".
Proof. vm_compute. repeat split. Qed.

Example reset_after_the_win :
  reply (Main.reset_game "g1" Sample.top_row_won)
    = Text "Game reset: g1 tic-tac-toe pending" ∧
  machine <$> get_game (registry (Main.reset_game "g1" Sample.top_row_won)) "g1"
    = Some (BoardGame empty_board).
Proof. vm_compute. repeat split. Qed.

Example episode_runs_to_done :
  let r3 := Sample.left (Sample.left (Sample.left Sample.with_cart)) in
  reply (Main.cartpole_move_left "c1" "ann" Sample.with_cart)
    = Text "Moved left: c1 CartPole-v1 in_progress" ∧
  reply (Main.get_game_state "c1" r3) = Text "Game state: c1 CartPole-v1 finished" ∧
  reply (Main.cartpole_move_left "c1" "ann" r3) = Text "Move failed: IllegalAction" ∧
  reply (Main.gym_reset "c1" r3) = Text "Environment reset: c1 CartPole-v1 in_progress".
Proof. vm_compute. repeat split. Qed.

Example action_outside_the_space :
  Main.gym_step "c1" (VInt 2) "ann" Sample.with_cart =
    {| reply := Text "Step failed: IllegalAction";
       registry := Sample.with_cart;
       calls := [CallMakeMove "c1" (fixed_action (GymStep (VInt 2)) "ann")] |}.
Proof. vm_compute. repeat split. Qed.

Example duplicate_and_unknown :
  reply (Main.start_game Sample.sample_id "tic-tac-toe" ["ann"; "bob"] (Some "g1")
           Sample.one_started) = Text "Error: DuplicateId g1" ∧
  reply (Main.start_game Sample.sample_id "chess" ["ann"; "bob"] None
           Sample.one_started) = Text "Error: UnknownKind chess".
Proof. vm_compute. repeat split. Qed.

(** * The theorems at concrete calls *)

Lemma guarded_tool_rejects_other_kind_witness :
  guard CartpoleMoveLeft = Some "CartPole-v1" ∧
  get_game Sample.one_started "g1" = Some Sample.started_board ∧
  game_type Sample.started_board ≠ "CartPole-v1" ∧
  run CartpoleMoveLeft "g1" "ann" Sample.one_started =
    {| reply := Text (not_found_text CartpoleMoveLeft "g1");
       registry := Sample.one_started; calls := [] |}.
Proof.
  assert (game_type Sample.started_board ≠ "CartPole-v1") as Hother
    by (vm_compute; discriminate).
  split; [reflexivity|]. split; [reflexivity|]. split; [exact Hother|].
  apply (guarded_tool_rejects_other_kind CartpoleMoveLeft "CartPole-v1" "g1" "ann"
           Sample.one_started Sample.started_board);
    [reflexivity | reflexivity | exact Hother].
Defined.

(** C1, counterexample: ["g1"] is a live tic-tac-toe session and [gym_step]
    forwards a [gym_step] action to it. *)
Lemma gym_step_forwards_to_board_game :
  let o := Main.gym_step "g1" (VInt 0) "ann" Sample.one_started in
  game_type <$> get_game Sample.one_started "g1" = Some "tic-tac-toe" ∧
  calls o = [CallMakeMove "g1" (fixed_action (GymStep (VInt 0)) "ann")] ∧
  existsb is_make_move (calls o) = true.
Proof. repeat split. Qed.

Lemma convenience_matches_make_move_witness :
  (∀ game, get_game Sample.one_started "g1" = Some game →
           lets_through (TicTacToePlaceMark 0 0) game) ∧
  let sugar := run (TicTacToePlaceMark 0 0) "g1" "ann" Sample.one_started in
  let plain := Main.make_move "g1" "place_mark"
                 {[ "row" := VInt 0; "col" := VInt 0 ]} "ann" Sample.one_started in
  registry sugar = registry plain ∧
  calls sugar = calls plain ∧
  reply sugar = Text "Mark placed: g1 tic-tac-toe in_progress" ∧
  reply plain = Text "Move successful: g1 tic-tac-toe in_progress".
Proof.
  assert (∀ game, get_game Sample.one_started "g1" = Some game →
                  lets_through (TicTacToePlaceMark 0 0) game) as Hkind.
  { intros game Hlive. vm_compute in Hlive. injection Hlive as <-. reflexivity. }
  split; [exact Hkind|].
  exact (convenience_matches_make_move (TicTacToePlaceMark 0 0) "g1" "ann"
           Sample.one_started Hkind).
Defined.

(** C2, counterexample: on the live tic-tac-toe session ["g1"] the reply of
    [tic_tac_toe_place_mark] is not the reply of [make_move] with the same
    tag and payload. *)
Lemma place_mark_reply_differs :
  let sugar := Main.tic_tac_toe_place_mark "g1" 0 0 "ann" Sample.one_started in
  let plain := Main.make_move "g1" "place_mark"
                 {[ "row" := VInt 0; "col" := VInt 0 ]} "ann" Sample.one_started in
  game_type <$> get_game Sample.one_started "g1" = Some "tic-tac-toe" ∧
  reply sugar = Text "Mark placed: g1 tic-tac-toe in_progress" ∧
  reply plain = Text "Move successful: g1 tic-tac-toe in_progress" ∧
  sugar ≠ plain.
Proof.
  intros sugar plain. repeat split.
  intros Heq. apply (f_equal reply) in Heq. vm_compute in Heq. discriminate.
Qed.

Lemma unknown_id_not_found_witness :
  games Sample.one_started !! "g2" = None ∧
  let missing :=
    {| reply := Text "Game g2 not found";
       registry := Sample.one_started; calls := [] |} in
  Main.make_move "g2" "place_mark" {[ "row" := VInt 0; "col" := VInt 0 ]} "ann"
    Sample.one_started = missing ∧
  Main.get_game_state "g2" Sample.one_started = missing ∧
  Main.reset_game "g2" Sample.one_started = missing.
Proof.
  split; [reflexivity|].
  apply (unknown_id_not_found "g2" "place_mark"
           {[ "row" := VInt 0; "col" := VInt 0 ]} "ann" Sample.one_started).
  reflexivity.
Defined.

Lemma start_game_creation_error_witness :
  success (create_game Sample.sample_id Sample.one_started "tic-tac-toe"
             (Some "g1")).1 = false ∧
  ∃ e,
    (create_game Sample.sample_id Sample.one_started "tic-tac-toe" (Some "g1")).1
      = failure e ∧
    ((dict_get "tic-tac-toe" (factories Sample.one_started) = None ∧
      e = UnknownKind "tic-tac-toe") ∨
     (∃ key, Some "g1" = Some key ∧ is_Some (games Sample.one_started !! key) ∧
             e = DuplicateId key)) ∧
    Main.start_game Sample.sample_id "tic-tac-toe" ["ann"; "bob"] (Some "g1")
      Sample.one_started =
      {| reply := Text ("Error: " +:+ describe e);
         registry := Sample.one_started; calls := [] |}.
Proof.
  split; [reflexivity|].
  apply (start_game_creation_error Sample.sample_id "tic-tac-toe" ["ann"; "bob"]
           (Some "g1") Sample.one_started).
  reflexivity.
Defined.

Lemma get_game_state_live_witness :
  get_game Sample.one_started "g1" = Some Sample.started_board ∧
  Main.get_game_state "g1" Sample.one_started =
    {| reply := Text "Game state: g1 tic-tac-toe in_progress";
       registry := Sample.one_started; calls := [CallGetState "g1"] |} ∧
  get_game (registry (Main.get_game_state "g1" Sample.one_started)) "g1"
    = Some Sample.started_board.
Proof.
  split; [reflexivity|].
  exact (get_game_state_live "g1" Sample.one_started Sample.started_board eq_refl).
Defined.

Lemma reset_game_live_witness :
  get_game Sample.one_started "g1" = Some Sample.started_board ∧
  ∃ fresh,
    (reset_session Sample.started_board).1 = ok fresh ∧
    Main.reset_game "g1" Sample.one_started =
      {| reply := Text ("Game reset: " +:+ model_dump fresh);
         registry := store Sample.one_started "g1"
                       (reset_session Sample.started_board).2;
         calls := [CallReset "g1"] |} ∧
    current_state (reset_session Sample.started_board).2 = fresh ∧
    gs_id fresh = "g1" ∧ gs_type fresh = "tic-tac-toe" ∧
    gs_status fresh = Pending ∧ gs_data fresh = BoardView empty_board.
Proof.
  split; [reflexivity|].
  exact (reset_game_live "g1" Sample.one_started Sample.started_board eq_refl).
Defined.

Lemma failed_start_keeps_session_witness :
  let f := new_board_game (Obs:=Z) (EnvSt:=Z) (Reward:=Z) "tic-tac-toe" in
  let o := Main.start_game Sample.sample_id "tic-tac-toe" ["ann"] (Some "g1")
             Sample.empty_registry in
  success (start_session (f "g1") ["ann"]).1 = false ∧
  success (create_game Sample.sample_id Sample.empty_registry "tic-tac-toe"
             (Some "g1")).1 = true ∧
  reply o = Text "Error starting game: InvalidPlayers" ∧
  calls o = [CallStart "g1" ["ann"]] ∧
  registry o = store Sample.empty_registry "g1" (f "g1") ∧
  get_game (registry o) "g1" = Some (f "g1") ∧
  status (f "g1") = Pending.
Proof.
  intros f o. split; [reflexivity|].
  assert (sound_factories Sample.empty_registry) as Hsound.
  { apply (registration_sound Sample.empty_registry [("CartPole-v1", Sample.counter)]).
    reflexivity. }
  assert (∀ key, Some "g1" = Some key → games Sample.empty_registry !! key = None)
    as Hfree.
  { intros key [= <-]. reflexivity. }
  exact (failed_start_keeps_session Sample.sample_id "tic-tac-toe" ["ann"]
           (Some "g1") Sample.empty_registry f Hsound eq_refl Hfree eq_refl).
Defined.

(** * Further properties of the handlers *)

Section ToolFacts.
Context {D G : Type} `{BaseGame D G} `{Rendering D}.
Variable new_id : GameRegistry G → string.

Implicit Types r : GameRegistry G.

Lemma passes_lets_through c (game : G) :
  passes c game = true ↔ lets_through c game.
Proof.
  unfold passes, lets_through. destruct (guard c) as [k|]; [|done].
  apply bool_decide_eq_true.
Qed.

Lemma run_turned_away c game_id who r game :
  get_game r game_id = Some game → passes c game = false →
  run c game_id who r =
    {| reply := Text (not_found_text c game_id); registry := r; calls := [] |}.
Proof.
  intros Hlive Hkind. unfold passes in Hkind.
  destruct c; simpl in Hkind; try discriminate;
    apply bool_decide_eq_false in Hkind; simpl;
    [ unfold Main.tic_tac_toe_place_mark
    | unfold Main.cartpole_move_left | unfold Main.cartpole_move_right
    | unfold Main.mountain_car_push_left | unfold Main.mountain_car_no_push
    | unfold Main.mountain_car_push_right | unfold Main.breakout_noop
    | unfold Main.breakout_fire | unfold Main.breakout_right
    | unfold Main.breakout_left ];
    rewrite Hlive; by destruct (decide _).
Qed.

Lemma run_passed c game_id who r game :
  get_game r game_id = Some game → passes c game = true →
  run c game_id who r =
    {| reply := report (good_prefix c) (bad_prefix c)
                  (game_make_move game (fixed_action c who)).1;
       registry := store r game_id (game_make_move game (fixed_action c who)).2;
       calls := [CallMakeMove game_id (fixed_action c who)] |}.
Proof.
  intros Hlive Hkind. apply run_let_through; [done|].
  by apply passes_lets_through.
Qed.

Lemma reset_game_on_live game_id r game :
  get_game r game_id = Some game →
  Main.reset_game game_id r =
    {| reply := report "Game reset: " "Reset failed: " (reset game).1;
       registry := store r game_id (reset game).2;
       calls := [CallReset game_id] |}.
Proof.
  intros Hlive. unfold Main.reset_game. rewrite Hlive.
  by destruct (reset game).
Qed.

Lemma gym_reset_on_live game_id r game :
  get_game r game_id = Some game →
  Main.gym_reset game_id r =
    {| reply := report "Environment reset: " "Reset failed: " (reset game).1;
       registry := store r game_id (reset game).2;
       calls := [CallReset game_id] |}.
Proof.
  intros Hlive. unfold Main.gym_reset. rewrite Hlive.
  by destruct (reset game).
Qed.

Lemma store_store r key (a b : G) : store (store r key a) key b = store r key b.
Proof. unfold store; simpl. f_equal. apply insert_insert_eq. Qed.

Lemma store_commute r key key' (a b : G) :
  key ≠ key' →
  store (store r key a) key' b = store (store r key' b) key a.
Proof. intros Hne. unfold store; simpl. f_equal. by apply insert_insert_ne. Qed.

(** Every tool of the family is a step on the one session it addresses:
    what it replies, what it leaves under [game_id] and which calls it makes
    are a function of the object found under [game_id]. *)
Lemma invoke_local t game_id :
  ∃ step : option G → Reply * option G * list Call,
    (step None).1.2 = None ∧
    (∀ found, (step found).2 = [] ∨
       ∃ c, (step found).2 = [c] ∧ call_key c = game_id ∧ is_Some found) ∧
    ∀ r, invoke t game_id r =
      {| reply := (step (get_game r game_id)).1.1;
         registry := from_option (store r game_id) r (step (get_game r game_id)).1.2;
         calls := (step (get_game r game_id)).2 |}.
Proof.
  destruct t as [action_type payload who| | | |c who].
  - set (action := {| type := action_type; payload := payload; player := who |}).
    exists (λ found,
      match found with
      | Some game => (report "Move successful: " "Move failed: "
                        (game_make_move game action).1,
                      Some (game_make_move game action).2,
                      [CallMakeMove game_id action])
      | None => (Text ("Game " +:+ game_id +:+ " not found"), None, [])
      end).
    split; [done|]. split.
    { intros [game|]; [right|by left]. eexists. by repeat split. }
    intros r. simpl. destruct (get_game r game_id) as [game|] eqn:Hlive.
    + by rewrite (make_move_live game_id action_type payload who r game Hlive).
    + unfold Main.make_move. by rewrite Hlive.
  - exists (λ found,
      match found with
      | Some game => (Text ("Game state: " +:+ model_dump (get_state game)),
                      None, [CallGetState game_id])
      | None => (Text ("Game " +:+ game_id +:+ " not found"), None, [])
      end).
    split; [done|]. split.
    { intros [game|]; [right|by left]. eexists. by repeat split. }
    intros r. simpl. unfold Main.get_game_state.
    by destruct (get_game r game_id).
  - exists (λ found,
      match found with
      | Some game => (report "Game reset: " "Reset failed: " (reset game).1,
                      Some (reset game).2, [CallReset game_id])
      | None => (Text ("Game " +:+ game_id +:+ " not found"), None, [])
      end).
    split; [done|]. split.
    { intros [game|]; [right|by left]. eexists. by repeat split. }
    intros r. simpl. destruct (get_game r game_id) as [game|] eqn:Hlive.
    + by rewrite (reset_game_on_live game_id r game Hlive).
    + unfold Main.reset_game. by rewrite Hlive.
  - exists (λ found,
      match found with
      | Some game => (report "Environment reset: " "Reset failed: " (reset game).1,
                      Some (reset game).2, [CallReset game_id])
      | None => (Text ("Game " +:+ game_id +:+ " not found"), None, [])
      end).
    split; [done|]. split.
    { intros [game|]; [right|by left]. eexists. by repeat split. }
    intros r. simpl. destruct (get_game r game_id) as [game|] eqn:Hlive.
    + by rewrite (gym_reset_on_live game_id r game Hlive).
    + unfold Main.gym_reset. by rewrite Hlive.
  - exists (λ found,
      match found with
      | Some game =>
          if passes c game
          then (report (good_prefix c) (bad_prefix c)
                  (game_make_move game (fixed_action c who)).1,
                Some (game_make_move game (fixed_action c who)).2,
                [CallMakeMove game_id (fixed_action c who)])
          else (Text (not_found_text c game_id), None, [])
      | None => (Text (not_found_text c game_id), None, [])
      end).
    split; [done|]. split.
    { intros [game|]; [|by left]. destruct (passes c game); [right|by left].
      eexists. by repeat split. }
    intros r. simpl. destruct (get_game r game_id) as [game|] eqn:Hlive.
    + destruct (passes c game) eqn:Hkind.
      * by rewrite (run_passed c game_id who r game Hlive Hkind).
      * by rewrite (run_turned_away c game_id who r game Hlive Hkind).
    + by rewrite (run_missing c game_id who r Hlive).
Qed.
Lemma invoke_other_key t game_id r key :
  key ≠ game_id →
  get_game (registry (invoke t game_id r)) key = get_game r key ∧
  factories (registry (invoke t game_id r)) = factories r.
Proof.
  intros Hother.
  destruct (invoke_local t game_id) as (step & _ & _ & Hstep).
  rewrite Hstep. simpl.
  destruct (step (get_game r game_id)).1.2 as [game'|]; simpl; [|done].
  split; [|done]. by apply store_lookup_other.
Qed.

Lemma starts_with_app prefix text : starts_with prefix (prefix +:+ text) = true.
Proof.
  induction prefix as [|a prefix IH]; simpl; [done|].
  by rewrite Ascii.eqb_refl, IH.
Qed.

(** A reply built by [report] starts with the refusal prefix exactly when
    the result is a refusal, provided a success reply cannot start with it. *)
Lemma report_refusal good bad (res : GameResult D) :
  (∀ text, starts_with bad (good +:+ text) = false) →
  reply_starts_with bad (report good bad res) = negb (success res).
Proof.
  intros Hdiff. unfold report. destruct (success res); simpl.
  - destruct (new_state res); simpl; [apply Hdiff|done].
  - apply starts_with_app.
Qed.


Lemma prefixes_differ c text :
  starts_with (bad_prefix c) (good_prefix c +:+ text) = false.
Proof. by destruct c. Qed.

Lemma not_found_is_no_refusal c game_id :
  starts_with (bad_prefix c) (not_found_text c game_id) = false.
Proof. by destruct c. Qed.

(** X1: what a tool replies, the method calls it makes and the object it
    leaves under [game_id] depend on the registry only through the object
    found under [game_id]. *)
Theorem tool_reads_only_its_session t game_id r r' :
  get_game r game_id = get_game r' game_id →
  reply (invoke t game_id r) = reply (invoke t game_id r') ∧
  calls (invoke t game_id r) = calls (invoke t game_id r') ∧
  get_game (registry (invoke t game_id r)) game_id =
    get_game (registry (invoke t game_id r')) game_id.
Proof.
  intros Hsame.
  destruct (invoke_local t game_id) as (step & _ & _ & Hstep).
  rewrite !Hstep. simpl. rewrite <- Hsame.
  split; [done|]. split; [done|].
  destruct (step (get_game r game_id)).1.2 as [game'|]; simpl; [|done].
  by rewrite !store_lookup.
Qed.

(** X2: a tool addressed to [game_id] leaves every other session, and the
    table of registered kinds, as they were. *)
Theorem tool_leaves_other_sessions t game_id r key :
  key ≠ game_id →
  get_game (registry (invoke t game_id r)) key = get_game r key ∧
  factories (registry (invoke t game_id r)) = factories r.
Proof. apply invoke_other_key. Qed.

(** X3: no tool of the family adds or removes a session: the set of live
    ids is the same after the call. *)
Theorem tool_keeps_live_ids t game_id r :
  dom (games (registry (invoke t game_id r))) = dom (games r).
Proof.
  destruct (invoke_local t game_id) as (step & Hnone & _ & Hstep).
  rewrite Hstep. simpl.
  destruct (get_game r game_id) as [game|] eqn:Hlive.
  - destruct (step (Some game)).1.2 as [game'|]; simpl; [|done].
    rewrite dom_insert_L.
    assert (game_id ∈ dom (games r)) as Hin by (apply elem_of_dom; by exists game).
    apply subseteq_union_1_L. by apply singleton_subseteq_l.
  - by rewrite Hnone.
Qed.

(** X4: two tool calls addressed to different ids commute: either order
    gives the same two replies, the same method calls and the same registry. *)
Theorem tools_on_different_sessions_commute t1 t2 id1 id2 r :
  id1 ≠ id2 →
  let first1 := invoke t1 id1 r in
  let then2 := invoke t2 id2 (registry first1) in
  let first2 := invoke t2 id2 r in
  let then1 := invoke t1 id1 (registry first2) in
  registry then2 = registry then1 ∧
  reply first1 = reply then1 ∧ reply first2 = reply then2 ∧
  calls first1 = calls then1 ∧ calls first2 = calls then2.
Proof.
  intros Hne first1 then2 first2 then1.
  assert (get_game (registry first1) id2 = get_game r id2) as H12
    by (apply invoke_other_key; congruence).
  assert (get_game (registry first2) id1 = get_game r id1) as H21
    by (by apply invoke_other_key).
  subst first1 then2 first2 then1.
  destruct (invoke_local t1 id1) as (step1 & _ & _ & Hstep1).
  destruct (invoke_local t2 id2) as (step2 & _ & _ & Hstep2).
  rewrite (Hstep2 (registry (invoke t1 id1 r))), (Hstep1 (registry (invoke t2 id2 r))).
  rewrite H12, H21. rewrite Hstep1, Hstep2. simpl.
  split; [|done].
  destruct (step1 (get_game r id1)).1.2 as [a|],
           (step2 (get_game r id2)).1.2 as [b|]; simpl; try done.
  by apply store_commute.
Qed.

(** X5: a tool of the family makes at most one method call; the call is on
    the session named by [game_id], and there is none when that id is not
    live. *)
Theorem tool_calls_at_most_once t game_id r :
  calls (invoke t game_id r) = [] ∨
  ∃ c, calls (invoke t game_id r) = [c] ∧ call_key c = game_id ∧
       is_Some (get_game r game_id).
Proof.
  destruct (invoke_local t game_id) as (step & _ & Hcalls & Hstep).
  rewrite Hstep. simpl. apply Hcalls.
Qed.

(** X6: a convenience tool calls [game.make_move] exactly when [game_id] is
    live and the session passes the tool's test on [game.type]; it then makes
    that one call, with the tool's fixed tag and payload and the caller's
    player. *)
Theorem convenience_forwards_exactly c game_id who r :
  calls (run c game_id who r) =
    match get_game r game_id with
    | Some game =>
        if passes c game then [CallMakeMove game_id (fixed_action c who)] else []
    | None => []
    end.
Proof.
  destruct (get_game r game_id) as [game|] eqn:Hlive.
  - destruct (passes c game) eqn:Hkind.
    + by rewrite (run_passed c game_id who r game Hlive Hkind).
    + by rewrite (run_turned_away c game_id who r game Hlive Hkind).
  - by rewrite (run_missing c game_id who r Hlive).
Qed.

(** X7: two convenience tools that test [game.type] against different kinds
    never both reach the same session: on one registry, at least one of them
    makes no call. *)
Theorem kinds_exclude_each_other c1 c2 k1 k2 game_id who1 who2 r :
  guard c1 = Some k1 → guard c2 = Some k2 → k1 ≠ k2 →
  calls (run c1 game_id who1 r) = [] ∨ calls (run c2 game_id who2 r) = [].
Proof.
  intros Hguard1 Hguard2 Hne.
  destruct (get_game r game_id) as [game|] eqn:Hlive.
  - destruct (decide (game_type game = k1)) as [Hkind|Hkind].
    + right. rewrite (run_turned_away c2 game_id who2 r game Hlive); [done|].
      unfold passes. rewrite Hguard2. apply bool_decide_eq_false. congruence.
    + left. rewrite (run_turned_away c1 game_id who1 r game Hlive); [done|].
      unfold passes. rewrite Hguard1. by apply bool_decide_eq_false.
  - left. by rewrite (run_missing c1 game_id who1 r Hlive).
Qed.
(** X8: the reply of a tool starts with the tool's refusal prefix exactly
    when [game_id] is live and the method the tool called on it reported
    [success = False]; neither a success reply nor a "not found" reply starts
    with it, whatever the snapshot, the error and the id print as. *)
Theorem refusal_prefix_tells_refusal t bad game_id r :
  refusal_prefix t = Some bad →
  reply_starts_with bad (reply (invoke t game_id r)) = true ↔
  ∃ game res, get_game r game_id = Some game ∧
              method_result t game = Some res ∧ success res = false.
Proof.
  intros Hbad.
  assert (∀ (game : G) (res : GameResult D) (b : bool),
            get_game r game_id = Some game →
            method_result t game = Some res → b = negb (success res) →
            b = true ↔ ∃ game' res', get_game r game_id = Some game' ∧
                        method_result t game' = Some res' ∧ success res' = false)
    as Hlive_case.
  { intros game res b Hlive Hres ->. split.
    - intros Hneg. exists game, res. by destruct (success res).
    - intros (game' & res' & Hlive' & Hres' & Hrefused).
      rewrite Hlive in Hlive'. injection Hlive' as <-.
      rewrite Hres in Hres'. injection Hres' as <-. by rewrite Hrefused. }
  assert (get_game r game_id = None →
            false = true ↔ ∃ game res, get_game r game_id = Some game ∧
                      method_result t game = Some res ∧ success res = false)
    as Hmissing_case.
  { intros Hmissing. split; [done|]. intros (game & res & Hlive & _).
    by rewrite Hmissing in Hlive. }
  destruct (get_game r game_id) as [game|] eqn:Hlive.
  - destruct t as [action_type payload who| | | |c who]; simpl in Hbad;
      try discriminate; injection Hbad as <-; unfold invoke.
    + rewrite (make_move_live game_id action_type payload who r game Hlive).
      apply (Hlive_case game _ _ eq_refl eq_refl). by apply report_refusal.
    + rewrite (reset_game_on_live game_id r game Hlive).
      apply (Hlive_case game _ _ eq_refl eq_refl). by apply report_refusal.
    + rewrite (gym_reset_on_live game_id r game Hlive).
      apply (Hlive_case game _ _ eq_refl eq_refl). by apply report_refusal.
    + destruct (passes c game) eqn:Hkind.
      * rewrite (run_passed c game_id who r game Hlive Hkind).
        apply (Hlive_case game (game_make_move game (fixed_action c who)).1 _ eq_refl).
        { simpl. by rewrite Hkind. }
        apply report_refusal, prefixes_differ.
      * rewrite (run_turned_away c game_id who r game Hlive Hkind). simpl.
        rewrite not_found_is_no_refusal. split; [done|].
        intros (game' & res & [= <-] & Hres & _). by rewrite Hkind in Hres.
  - destruct t as [action_type payload who| | | |c who]; simpl in Hbad;
      try discriminate; injection Hbad as <-; unfold invoke.
    + unfold Main.make_move. rewrite Hlive. by apply Hmissing_case.
    + unfold Main.reset_game. rewrite Hlive. by apply Hmissing_case.
    + unfold Main.gym_reset. rewrite Hlive. by apply Hmissing_case.
    + rewrite (run_missing c game_id who r Hlive). simpl.
      rewrite not_found_is_no_refusal. by apply Hmissing_case.
Qed.


(** X10: [gym_reset] does what [reset_game] does, on a session of any kind:
    the same [reset] call and the same registry.  The replies are the same
    too when the id is not live or the reset is refused; for a successful
    reset they carry the same snapshot under "Environment reset: " and
    under "Game reset: ". *)
Theorem gym_reset_matches_reset_game game_id r :
  let gym := Main.gym_reset game_id r in
  let plain := Main.reset_game game_id r in
  registry gym = registry plain ∧
  calls gym = calls plain ∧
  match get_game r game_id with
  | Some game =>
      if success (reset game).1 then
        match new_state (reset game).1 with
        | Some st =>
            reply gym = Text ("Environment reset: " +:+ model_dump st) ∧
            reply plain = Text ("Game reset: " +:+ model_dump st)
        | None => reply gym = reply plain
        end
      else reply gym = Text ("Reset failed: " +:+ str_error (error (reset game).1)) ∧
           reply plain = reply gym
  | None => reply gym = Text ("Game " +:+ game_id +:+ " not found") ∧
            reply plain = reply gym
  end.
Proof.
  intros gym plain. subst gym plain.
  destruct (get_game r game_id) as [game|] eqn:Hlive.
  - rewrite (gym_reset_on_live game_id r game Hlive),
            (reset_game_on_live game_id r game Hlive). simpl.
    split; [done|]. split; [done|].
    unfold report. destruct (success (reset game).1); [|done].
    by destruct (new_state (reset game).1).
  - unfold Main.gym_reset, Main.reset_game. by rewrite Hlive.
Qed.
Lemma start_game_outcome game_type players key r f :
  dict_get game_type (factories r) = Some f →
  factories (registry (Main.start_game new_id game_type players (Some key) r))
    = factories r ∧
  is_Some (games (registry (Main.start_game new_id game_type players (Some key) r))
             !! key).
Proof.
  intros Hkind. unfold Main.start_game, create_game. rewrite Hkind.
  destruct (decide (is_Some (games r !! key))) as [Hlive|Hfree]; simpl; [done|].
  destruct (get_game (store r key (f key)) (gs_id (get_state (f key))))
    as [game|]; simpl.
  - destruct (start game players) as [start_result game']. simpl.
    split; [done|].
    destruct (decide (gs_id (get_state (f key)) = key)) as [->|Hne].
    + rewrite lookup_insert_eq. eauto.
    + rewrite lookup_insert_ne, lookup_insert_eq by done. eauto.
  - split; [done|]. rewrite lookup_insert_eq. eauto.
Qed.

(** X11: an explicit id handed to [start_game] for a registered kind is live
    afterwards, whether the session was started, the start was refused or
    the id was live before; a further [start_game] with that id, for any
    registered kind and any players, answers with the [DuplicateId] error,
    calls nothing and changes nothing. *)
Theorem explicit_id_cannot_be_started_twice
    game_type players key game_type' players' r :
  is_Some (dict_get game_type (factories r)) →
  is_Some (dict_get game_type' (factories r)) →
  let r1 := registry (Main.start_game new_id game_type players (Some key) r) in
  Main.start_game new_id game_type' players' (Some key) r1 =
    {| reply := Text ("Error: " +:+ describe (DuplicateId key));
       registry := r1; calls := [] |}.
Proof.
  intros [f Hkind] [f' Hkind'] r1.
  destruct (start_game_outcome game_type players key r f Hkind) as [Htable Hlive].
  fold r1 in Htable, Hlive.
  unfold Main.start_game, create_game. rewrite Htable, Hkind'.
  by destruct (decide (is_Some (games r1 !! key))).
Qed.

(** X12: for a registered kind and an id that is free, [start_game] calls
    [start] once, with the players it was given, on the object the kind's
    factory builds for that id; it stores under the id the object as [start]
    leaves it and reports the result of [start], whether that is a success
    or a refusal. *)
Theorem start_game_registers_and_starts game_type players game_id r f :
  sound_factories r →
  dict_get game_type (factories r) = Some f →
  (∀ key, game_id = Some key → games r !! key = None) →
  let key := default (new_id r) game_id in
  Main.start_game new_id game_type players game_id r =
    {| reply := report "Game started: " "Error starting game: "
                  (start (f key) players).1;
       registry := store r key (start (f key) players).2;
       calls := [CallStart key players] |}.
Proof.
  intros Hsound Hkind Hfree key.
  destruct (Hsound game_type f key Hkind) as [Hid _].
  assert (create_game new_id r game_type game_id
          = (ok (get_state (f key)), store r key (f key))) as Hcreate.
  { unfold create_game. rewrite Hkind. subst key.
    destruct game_id as [k|]; simpl; [|done].
    destruct (decide (is_Some (games r !! k))) as [Hlive|_]; [|done].
    rewrite (Hfree k eq_refl) in Hlive. by destruct Hlive. }
  unfold Main.start_game. rewrite Hcreate. simpl.
  rewrite Hid, store_lookup.
  destruct (start (f key) players) as [start_result game']. simpl.
  by rewrite store_store.
Qed.
(** X13: [get_game_state] shows the session as the previous tool left it:
    after a [make_move] or a [reset_game] on a live id, successful or
    refused, it replies with the snapshot of the object that the method call
    returned. *)
Theorem get_game_state_sees_last_call game_id action_type payload who r game :
  get_game r game_id = Some game →
  let action := {| type := action_type; payload := payload; player := who |} in
  reply (Main.get_game_state game_id
           (registry (Main.make_move game_id action_type payload who r)))
    = Text ("Game state: " +:+ model_dump (get_state (game_make_move game action).2)) ∧
  reply (Main.get_game_state game_id (registry (Main.reset_game game_id r)))
    = Text ("Game state: " +:+ model_dump (get_state (reset game).2)).
Proof.
  intros Hlive action.
  rewrite (make_move_live game_id action_type payload who r game Hlive).
  rewrite (reset_game_on_live game_id r game Hlive). simpl.
  unfold Main.get_game_state. by rewrite !store_lookup.
Qed.
End ToolFacts.

(** * The further properties at concrete calls *)

Lemma tool_reads_only_its_session_witness :
  let t := MakeMove "place_mark" {[ "row" := VInt 0; "col" := VInt 0 ]} "ann" in
  get_game Sample.one_started "g1" = get_game Sample.with_cart "g1" ∧
  reply (invoke t "g1" Sample.one_started) = reply (invoke t "g1" Sample.with_cart) ∧
  calls (invoke t "g1" Sample.one_started) = calls (invoke t "g1" Sample.with_cart) ∧
  get_game (registry (invoke t "g1" Sample.one_started)) "g1" =
    get_game (registry (invoke t "g1" Sample.with_cart)) "g1".
Proof.
  intros t. split; [reflexivity|].
  exact (tool_reads_only_its_session t "g1" Sample.one_started Sample.with_cart
           eq_refl).
Defined.

Lemma tool_leaves_other_sessions_witness :
  let t := Sugar CartpoleMoveLeft "ann" in
  "g1" ≠ "c1" ∧
  get_game (registry (invoke t "c1" Sample.with_cart)) "g1"
    = get_game Sample.with_cart "g1" ∧
  factories (registry (invoke t "c1" Sample.with_cart)) = factories Sample.with_cart.
Proof.
  intros t.
  assert ("g1" ≠ "c1") as Hother by discriminate.
  split; [exact Hother|].
  exact (tool_leaves_other_sessions t "c1" Sample.with_cart "g1" Hother).
Defined.

Lemma tools_on_different_sessions_commute_witness :
  let t1 := MakeMove "place_mark" {[ "row" := VInt 0; "col" := VInt 0 ]} "ann" in
  let t2 := Sugar CartpoleMoveLeft "ann" in
  "g1" ≠ "c1" ∧
  let first1 := invoke t1 "g1" Sample.with_cart in
  let then2 := invoke t2 "c1" (registry first1) in
  let first2 := invoke t2 "c1" Sample.with_cart in
  let then1 := invoke t1 "g1" (registry first2) in
  registry then2 = registry then1 ∧
  reply first1 = reply then1 ∧ reply first2 = reply then2 ∧
  calls first1 = calls then1 ∧ calls first2 = calls then2.
Proof.
  intros t1 t2.
  assert ("g1" ≠ "c1") as Hne by discriminate.
  split; [exact Hne|].
  exact (tools_on_different_sessions_commute t1 t2 "g1" "c1" Sample.with_cart Hne).
Defined.

Lemma kinds_exclude_each_other_witness :
  guard CartpoleMoveLeft = Some "CartPole-v1" ∧
  guard BreakoutNoop = Some "ALE/Breakout-v5" ∧
  "CartPole-v1" ≠ "ALE/Breakout-v5" ∧
  (calls (run CartpoleMoveLeft "c1" "ann" Sample.with_cart) = [] ∨
   calls (run BreakoutNoop "c1" "ann" Sample.with_cart) = []).
Proof.
  assert ("CartPole-v1" ≠ "ALE/Breakout-v5") as Hne by discriminate.
  split; [reflexivity|]. split; [reflexivity|]. split; [exact Hne|].
  exact (kinds_exclude_each_other CartpoleMoveLeft BreakoutNoop "CartPole-v1"
           "ALE/Breakout-v5" "c1" "ann" "ann" Sample.with_cart eq_refl eq_refl Hne).
Defined.

Lemma refusal_prefix_tells_refusal_witness :
  let t := Sugar (TicTacToePlaceMark 0 0) "bob" in
  refusal_prefix t = Some "Failed to place mark: " ∧
  (reply_starts_with "Failed to place mark: " (reply (invoke t "g1" Sample.one_started))
     = true ↔
   ∃ game res, get_game Sample.one_started "g1" = Some game ∧
               method_result t game = Some res ∧ success res = false).
Proof.
  intros t. split; [reflexivity|].
  exact (refusal_prefix_tells_refusal t "Failed to place mark: " "g1"
           Sample.one_started eq_refl).
Defined.


Lemma explicit_id_cannot_be_started_twice_witness :
  let r1 := registry (Main.start_game Sample.sample_id "tic-tac-toe" ["ann"]
                        (Some "g9") Sample.empty_registry) in
  is_Some (dict_get "tic-tac-toe" (factories Sample.empty_registry)) ∧
  reply (Main.start_game Sample.sample_id "tic-tac-toe" ["ann"] (Some "g9")
           Sample.empty_registry) = Text "Error starting game: InvalidPlayers" ∧
  Main.start_game Sample.sample_id "tic-tac-toe" ["ann"; "bob"] (Some "g9") r1 =
    {| reply := Text ("Error: " +:+ describe (DuplicateId "g9"));
       registry := r1; calls := [] |}.
Proof.
  intros r1.
  assert (is_Some (dict_get "tic-tac-toe" (factories Sample.empty_registry)))
    as Hkind by (vm_compute; eauto).
  split; [exact Hkind|]. split; [reflexivity|].
  exact (explicit_id_cannot_be_started_twice Sample.sample_id "tic-tac-toe" ["ann"]
           "g9" "tic-tac-toe" ["ann"; "bob"] Sample.empty_registry Hkind Hkind).
Defined.

Lemma start_game_registers_and_starts_witness :
  let f := new_simulation "CartPole-v1" Sample.counter in
  dict_get "CartPole-v1" (factories Sample.one_started) = Some f ∧
  games Sample.one_started !! "c1" = None ∧
  Main.start_game Sample.sample_id "CartPole-v1" ["ann"] (Some "c1")
    Sample.one_started =
    {| reply := report "Game started: " "Error starting game: "
                  (start (f "c1") ["ann"]).1;
       registry := store Sample.one_started "c1" (start (f "c1") ["ann"]).2;
       calls := [CallStart "c1" ["ann"]] |}.
Proof.
  intros f. split; [reflexivity|]. split; [reflexivity|].
  assert (sound_factories Sample.one_started) as Hsound.
  { apply (registration_sound Sample.one_started [("CartPole-v1", Sample.counter)]).
    reflexivity. }
  assert (∀ key, Some "c1" = Some key → games Sample.one_started !! key = None)
    as Hfree.
  { intros key [= <-]. reflexivity. }
  exact (start_game_registers_and_starts Sample.sample_id "CartPole-v1" ["ann"]
           (Some "c1") Sample.one_started f Hsound eq_refl Hfree).
Defined.

Lemma get_game_state_sees_last_call_witness :
  get_game Sample.one_started "g1" = Some Sample.started_board ∧
  reply (Main.get_game_state "g1"
           (registry (Main.make_move "g1" "place_mark"
                        {[ "row" := VInt 0; "col" := VInt 0 ]} "bob"
                        Sample.one_started)))
    = Text "Game state: g1 tic-tac-toe in_progress" ∧
  reply (Main.get_game_state "g1" (registry (Main.reset_game "g1" Sample.one_started)))
    = Text "Game state: g1 tic-tac-toe pending".
Proof.
  split; [reflexivity|].
  exact (get_game_state_sees_last_call "g1" "place_mark"
           {[ "row" := VInt 0; "col" := VInt 0 ]} "bob" Sample.one_started
           Sample.started_board eq_refl).
Defined.
